(** * Personal library: record store, asset files, query filter, statistics

    A shallow embedding of [app.py].  The Streamlit session state, the
    cover-image directory and the CSV data file are one explicit [State];
    every helper of the script that touches them is a computation in a
    small state-and-abort monad, written in the order of the Python
    statements it embeds. *)

From Stdlib Require Import ZArith QArith Ascii String List Lia.
From stdpp Require Import base option list gmap strings.

Local Open Scope string_scope.
Local Open Scope Z_scope.

(** ** Python values *)

(** [str] objects are [string]; a [bytes] buffer is a [string] as well.
    Truthiness of a [str]: the empty string is falsy. *)
Definition truthy (s : string) : bool :=
  match s with
  | EmptyString => false
  | String _ _ => true
  end.

(** [s.split(sep)] for a one-character separator. *)
Fixpoint split (sep : ascii) (s : string) : list string :=
  match s with
  | EmptyString => [EmptyString]
  | String c s' =>
      if Ascii.eqb c sep then EmptyString :: split sep s'
      else match split sep s' with
           | [] => [String c EmptyString]
           | w :: ws => String c w :: ws
           end
  end.

(** [xs[-1]] on a list of strings that [split] returned (never empty). *)
Definition last_item (xs : list string) : string := List.last xs EmptyString.

(** [c in s] for a character. *)
Fixpoint mem_ascii (c : ascii) (s : string) : bool :=
  match s with
  | EmptyString => false
  | String d s' => Ascii.eqb c d || mem_ascii c s'
  end.

(** [c.lower()] and [s.lower()] on ASCII text: only [A]-[Z] move.  A
    [string] here is a sequence of bytes, and Python lowers letters
    outside ASCII too; the statements that depend on [lower] are made
    for ASCII text ([is_ascii]). *)
Definition lower_ascii (c : ascii) : ascii :=
  let n := nat_of_ascii c in
  if (65 <=? n)%nat && (n <=? 90)%nat then ascii_of_nat (n + 32) else c.

Fixpoint lower (s : string) : string :=
  match s with
  | EmptyString => EmptyString
  | String c s' => String (lower_ascii c) (lower s')
  end.

Fixpoint is_ascii (s : string) : bool :=
  match s with
  | EmptyString => true
  | String c s' => (nat_of_ascii c <? 128)%nat && is_ascii s'
  end.

(** The object Streamlit's [file_uploader] hands over. *)
Record UploadedFile := {
  name : string;
  getbuffer : string
}.

(** ** The data frame *)

(** A cell of a text column.  The rows the script builds hold [str]
    objects.  A frame that [pd.read_csv] loaded at the start of a session
    holds the float [NaN] where the file had an empty field (or a text
    such as [N/A]), and a number where a whole column read as numbers;
    [Num] keeps the text that [str()] gives for that number. *)
Inductive Cell :=
| Str (s : string)
| NaN
| Num (text : string).

Definition is_str (c : Cell) : bool :=
  match c with
  | Str _ => true
  | NaN | Num _ => false
  end.

(** [str(cell)], the cast the text widgets apply to their [value]. *)
Definition cell_text (c : Cell) : string :=
  match c with
  | Str s => s
  | NaN => "nan"
  | Num text => text
  end.

(** One row of [library_df], a field per column.  [Genre] and [Status]
    come from the fixed choice lists and [Date Added] is a formatted
    date: they are [str] in every frame the script writes or reads back.
    The number columns hold integers. *)
Record Book := {
  Title : Cell;
  Author : Cell;
  ISBN : Cell;
  Genre : string;
  Publication_Year : Z;
  Pages : Z;
  Current_Page : Z;
  Status : string;
  Rating : Z;
  Review : Cell;
  Date_Added : string;
  Date_Finished : Cell;
  Cover_Image : Cell
}.

(** Column writes, one per column that [update_book] assigns; the text
    columns are assigned [str] values. *)
Definition with_Title (v : string) (b : Book) : Book :=
  {| Title := Str v; Author := Author b; ISBN := ISBN b; Genre := Genre b;
     Publication_Year := Publication_Year b; Pages := Pages b;
     Current_Page := Current_Page b; Status := Status b; Rating := Rating b;
     Review := Review b; Date_Added := Date_Added b;
     Date_Finished := Date_Finished b; Cover_Image := Cover_Image b |}.

Definition with_Author (v : string) (b : Book) : Book :=
  {| Title := Title b; Author := Str v; ISBN := ISBN b; Genre := Genre b;
     Publication_Year := Publication_Year b; Pages := Pages b;
     Current_Page := Current_Page b; Status := Status b; Rating := Rating b;
     Review := Review b; Date_Added := Date_Added b;
     Date_Finished := Date_Finished b; Cover_Image := Cover_Image b |}.

Definition with_ISBN (v : string) (b : Book) : Book :=
  {| Title := Title b; Author := Author b; ISBN := Str v; Genre := Genre b;
     Publication_Year := Publication_Year b; Pages := Pages b;
     Current_Page := Current_Page b; Status := Status b; Rating := Rating b;
     Review := Review b; Date_Added := Date_Added b;
     Date_Finished := Date_Finished b; Cover_Image := Cover_Image b |}.

Definition with_Genre (v : string) (b : Book) : Book :=
  {| Title := Title b; Author := Author b; ISBN := ISBN b; Genre := v;
     Publication_Year := Publication_Year b; Pages := Pages b;
     Current_Page := Current_Page b; Status := Status b; Rating := Rating b;
     Review := Review b; Date_Added := Date_Added b;
     Date_Finished := Date_Finished b; Cover_Image := Cover_Image b |}.

Definition with_Publication_Year (v : Z) (b : Book) : Book :=
  {| Title := Title b; Author := Author b; ISBN := ISBN b; Genre := Genre b;
     Publication_Year := v; Pages := Pages b; Current_Page := Current_Page b;
     Status := Status b; Rating := Rating b; Review := Review b;
     Date_Added := Date_Added b; Date_Finished := Date_Finished b;
     Cover_Image := Cover_Image b |}.

Definition with_Pages (v : Z) (b : Book) : Book :=
  {| Title := Title b; Author := Author b; ISBN := ISBN b; Genre := Genre b;
     Publication_Year := Publication_Year b; Pages := v;
     Current_Page := Current_Page b; Status := Status b; Rating := Rating b;
     Review := Review b; Date_Added := Date_Added b;
     Date_Finished := Date_Finished b; Cover_Image := Cover_Image b |}.

Definition with_Current_Page (v : Z) (b : Book) : Book :=
  {| Title := Title b; Author := Author b; ISBN := ISBN b; Genre := Genre b;
     Publication_Year := Publication_Year b; Pages := Pages b;
     Current_Page := v; Status := Status b; Rating := Rating b;
     Review := Review b; Date_Added := Date_Added b;
     Date_Finished := Date_Finished b; Cover_Image := Cover_Image b |}.

Definition with_Status (v : string) (b : Book) : Book :=
  {| Title := Title b; Author := Author b; ISBN := ISBN b; Genre := Genre b;
     Publication_Year := Publication_Year b; Pages := Pages b;
     Current_Page := Current_Page b; Status := v; Rating := Rating b;
     Review := Review b; Date_Added := Date_Added b;
     Date_Finished := Date_Finished b; Cover_Image := Cover_Image b |}.

Definition with_Rating (v : Z) (b : Book) : Book :=
  {| Title := Title b; Author := Author b; ISBN := ISBN b; Genre := Genre b;
     Publication_Year := Publication_Year b; Pages := Pages b;
     Current_Page := Current_Page b; Status := Status b; Rating := v;
     Review := Review b; Date_Added := Date_Added b;
     Date_Finished := Date_Finished b; Cover_Image := Cover_Image b |}.

Definition with_Review (v : string) (b : Book) : Book :=
  {| Title := Title b; Author := Author b; ISBN := ISBN b; Genre := Genre b;
     Publication_Year := Publication_Year b; Pages := Pages b;
     Current_Page := Current_Page b; Status := Status b; Rating := Rating b;
     Review := Str v; Date_Added := Date_Added b;
     Date_Finished := Date_Finished b; Cover_Image := Cover_Image b |}.

Definition with_Date_Finished (v : string) (b : Book) : Book :=
  {| Title := Title b; Author := Author b; ISBN := ISBN b; Genre := Genre b;
     Publication_Year := Publication_Year b; Pages := Pages b;
     Current_Page := Current_Page b; Status := Status b; Rating := Rating b;
     Review := Review b; Date_Added := Date_Added b; Date_Finished := Str v;
     Cover_Image := Cover_Image b |}.

Definition with_Cover_Image (v : string) (b : Book) : Book :=
  {| Title := Title b; Author := Author b; ISBN := ISBN b; Genre := Genre b;
     Publication_Year := Publication_Year b; Pages := Pages b;
     Current_Page := Current_Page b; Status := Status b; Rating := Rating b;
     Review := Review b; Date_Added := Date_Added b;
     Date_Finished := Date_Finished b; Cover_Image := Str v |}.

(** The text cells of a row are all [str]: a row built in the session. *)
Definition str_row (b : Book) : bool :=
  is_str (Title b) && is_str (Author b) && is_str (ISBN b)
  && is_str (Review b) && is_str (Date_Finished b) && is_str (Cover_Image b).

(** ** Constants *)

Definition DATA_FILE : string := "library_data.csv".
Definition COVER_IMAGE_FOLDER : string := "book_covers".
Definition PLACEHOLDER : string :=
  "https://via.placeholder.com/150x200?text=No+Cover".

(** ** The world the script runs in *)

(** What the script shows or writes out, in program order. *)
Inductive Event :=
| to_csv (rows : list Book)
| st_success (msg : string)
| st_error (msg : string)
| st_image (src : string).

(** [library_df] and [edit_index] are the two keys of
    [st.session_state]; the frame's index is always the default
    [0 .. n-1] (both [pd.concat(..., ignore_index=True)] and
    [reset_index(drop=True)] renumber), so a row's label is its position
    in the list.  [files] is the regular files of a POSIX file system, a
    path to its content; the cover folder exists (the script makes it
    when it starts) and has no folder inside, the script makes none.
    [data_file] is the table last written to [library_data.csv]. *)
Record State := {
  library_df : list Book;
  edit_index : option nat;
  files : gmap string string;
  data_file : option (list Book);
  shown : list Event
}.

(** Why a computation stops without a result.  [KeyError], [IndexError],
    [TypeError] and [FileNotFoundError] are the Python exceptions:
    [.at] read on an absent label, [.iloc] past the end,
    [os.path.exists] on a float, [open] under a folder that is not
    there.  The others mark what this embedding leaves out:
    [Enlargement] is [.at] assignment on an absent label, which pandas
    answers by growing the frame with a row of missing values;
    [PatternOutsideFragment] a search text whose regular expression is
    outside the part of [re] embedded below; [PathOutsideModel] a file
    name that is not a plain name in the cover folder; [DtypeOutsideModel]
    the assignment of a [str] to a column that holds none, whose outcome
    depends on the pandas version; [CellOutsideModel] a cell that is not
    a [str] where the outcome depends on the kind of number it is or on
    the column it sits in. *)
Inductive Stop :=
  KeyError | IndexError | Enlargement | PatternOutsideFragment
| TypeError | FileNotFoundError
| PathOutsideModel | DtypeOutsideModel | CellOutsideModel.

Inductive Res (A : Type) :=
| Ok (a : A)
| Stopped (why : Stop).
Arguments Ok {A} a.
Arguments Stopped {A} why.

Definition M (A : Type) : Type := State -> Res (A * State).

Global Instance M_ret : MRet M := fun A (a : A) st => Ok (a, st).

Global Instance M_bind : MBind M := fun A B (k : A -> M B) (c : M A) st =>
  match c st with
  | Ok (a, st') => k a st'
  | Stopped why => Stopped why
  end.

Definition stop {A} (why : Stop) : M A := fun _ => Stopped why.

Definition get_df : M (list Book) := fun st => Ok (library_df st, st).

Definition put_df (df : list Book) : M unit := fun st =>
  Ok (tt, {| library_df := df; edit_index := edit_index st; files := files st;
             data_file := data_file st; shown := shown st |}).

Definition emit (e : Event) : M unit := fun st =>
  Ok (tt, {| library_df := library_df st; edit_index := edit_index st;
             files := files st; data_file := data_file st;
             shown := shown st ++ [e] |}).

(** *** File names *)

Definition NUL : ascii := ascii_of_nat 0.

(** A name that is one component of a path and names no folder: not
    empty, not [.] or [..], no slash, no null byte, at most 255 bytes. *)
Definition plain_name (n : string) : bool :=
  truthy n && negb (String.eqb n ".") && negb (String.eqb n "..")
  && negb (mem_ascii "/" n) && negb (mem_ascii NUL n)
  && (String.length n <=? 255)%nat.

(** The part of a path after a prefix, when the path starts with it. *)
Fixpoint strip_prefix (prefix s : string) : option string :=
  match prefix with
  | EmptyString => Some s
  | String c prefix' =>
      match s with
      | EmptyString => None
      | String d s' => if Ascii.eqb c d then strip_prefix prefix' s' else None
      end
  end.

(** The part of a name before its first slash. *)
Fixpoint first_component (n : string) : string :=
  match n with
  | EmptyString => EmptyString
  | String c n' =>
      if Ascii.eqb c "/" then EmptyString else String c (first_component n')
  end.

(** What [open(path, "wb")] meets. *)
Inductive WriteTarget := Writable | NoSuchFolder | NotCovered.

(** A plain name in the cover folder can be written.  A name with a
    slash whose first component is a plain name that is no file of the
    cover folder asks for a folder that is not there.  Every other path
    (a way out of the cover folder through [..], a doubled slash, a
    folder name) is not covered. *)
Definition write_target (fs : gmap string string) (path : string)
    : WriteTarget :=
  match strip_prefix (COVER_IMAGE_FOLDER ++ "/") path with
  | None => NotCovered
  | Some n =>
      if plain_name n then Writable
      else if mem_ascii "/" n && plain_name (first_component n)
              && negb (bool_decide
                         (is_Some (fs !! (COVER_IMAGE_FOLDER ++ "/"
                                            ++ first_component n))))
           then NoSuchFolder
           else NotCovered
  end.

(** [with open(path, "wb") as f: f.write(content)]. *)
Definition write_file (path content : string) : M unit := fun st =>
  match write_target (files st) path with
  | Writable =>
      Ok (tt, {| library_df := library_df st; edit_index := edit_index st;
                 files := <[path := content]> (files st);
                 data_file := data_file st; shown := shown st |})
  | NoSuchFolder => Stopped FileNotFoundError
  | NotCovered => Stopped PathOutsideModel
  end.

(** [os.path.exists(path)] on a [str]. *)
Definition path_exists (path : string) : M bool := fun st =>
  Ok (bool_decide (is_Some (files st !! path)), st).

(** [os.remove(path)], called on existing paths only. *)
Definition os_remove (path : string) : M unit := fun st =>
  Ok (tt, {| library_df := library_df st; edit_index := edit_index st;
             files := delete path (files st);
             data_file := data_file st; shown := shown st |}).

(** [del st.session_state.edit_index]. *)
Definition del_edit_index : M unit := fun st =>
  Ok (tt, {| library_df := library_df st; edit_index := None;
             files := files st; data_file := data_file st;
             shown := shown st |}).

(** [library_df.at[index, column]], read. *)
Definition at_get {A} (index : nat) (column : Book -> A) : M A := fun st =>
  match library_df st !! index with
  | Some b => Ok (column b, st)
  | None => Stopped KeyError
  end.

(** [library_df.at[index, column] = value] on a number column, and on
    [Genre] and [Status]. *)
Definition at_set (index : nat) (assign : Book -> Book) : M unit := fun st =>
  match library_df st !! index with
  | Some b => put_df (<[index := assign b]> (library_df st)) st
  | None => Stopped Enlargement
  end.

(** A text column holds [str] objects when one of its cells is a [str];
    a column of [NaN] and numbers alone is a float or integer column. *)
Definition object_column (column : Book -> Cell) (df : list Book) : bool :=
  existsb (fun b => is_str (column b)) df.

(** [library_df.at[index, column] = value] for a [str] value on a text
    column. *)
Definition at_set_text (index : nat) (column : Book -> Cell)
    (assign : Book -> Book) : M unit := fun st =>
  match library_df st !! index with
  | Some b =>
      if object_column column (library_df st)
      then put_df (<[index := assign b]> (library_df st)) st
      else Stopped DtypeOutsideModel
  | None => Stopped Enlargement
  end.

(** ** Helper functions *)

Definition save_data : M unit := fun st =>
  Ok (tt, {| library_df := library_df st; edit_index := edit_index st;
             files := files st; data_file := Some (library_df st);
             shown := shown st ++ [to_csv (library_df st)] |}).

Definition file_extension (uploaded_file : UploadedFile) : string :=
  last_item (split "." (name uploaded_file)).

Definition cover_filename_of (isbn file_ext : string) : string :=
  COVER_IMAGE_FOLDER ++ "/" ++ isbn ++ "." ++ file_ext.

Definition handle_cover_upload (uploaded_file : option UploadedFile)
    (isbn : string) : M (option string) :=
  match uploaded_file with
  | Some f =>
      let cover_filename := cover_filename_of isbn (file_extension f) in
      write_file cover_filename (getbuffer f) ;;
      mret (Some cover_filename)
  | None => mret None
  end.

(** [cover_path and os.path.exists(cover_path)].  [NaN] is truthy and
    [os.path.exists] raises [TypeError] on a float. *)
Definition cover_exists (cover_path : Cell) : M bool :=
  match cover_path with
  | Str p => if truthy p then path_exists p else mret false
  | NaN => stop TypeError
  | Num _ => stop CellOutsideModel
  end.

(** [not cell]. *)
Definition cell_not (cell : Cell) : M bool :=
  match cell with
  | Str s => mret (negb (truthy s))
  | NaN => mret false
  | Num _ => stop CellOutsideModel
  end.

Definition display_cover (cover_path : Cell) : M unit :=
  ok ← cover_exists cover_path;
  if ok : bool then emit (st_image (cell_text cover_path))
  else emit (st_image PLACEHOLDER).

(** [today] is [datetime.date.today().strftime("%Y-%m-%d")].  Under the
    guard [if cover_file] the upload helper always returns a file name, so
    the cell never holds [None]. *)
Definition add_book (today : string) (title author isbn genre : string)
    (year pages : Z) (cover_file : option UploadedFile) : M unit :=
  cover ← match cover_file with
          | Some _ =>
              r ← handle_cover_upload cover_file isbn;
              mret (default EmptyString r)
          | None => mret EmptyString
          end;
  let new_book :=
    {| Title := Str title; Author := Str author; ISBN := Str isbn;
       Genre := genre; Publication_Year := year; Pages := pages;
       Current_Page := 0; Status := "Unread"; Rating := 0; Review := Str "";
       Date_Added := today; Date_Finished := Str "";
       Cover_Image := Str cover |} in
  df ← get_df;
  put_df (df ++ [new_book]) ;;
  save_data ;;
  emit (st_success "Book added successfully!").

Definition update_book (today : string) (index : nat)
    (title author isbn genre : string) (year pages current_page : Z)
    (status : string) (rating : Z) (review : string)
    (cover_file : option UploadedFile) : M unit :=
  at_set_text index Title (with_Title title) ;;
  at_set_text index Author (with_Author author) ;;
  at_set_text index ISBN (with_ISBN isbn) ;;
  at_set index (with_Genre genre) ;;
  at_set index (with_Publication_Year year) ;;
  at_set index (with_Pages pages) ;;
  at_set index (with_Current_Page current_page) ;;
  at_set index (with_Status status) ;;
  at_set index (with_Rating rating) ;;
  at_set_text index Review (with_Review review) ;;
  (if String.eqb status "Completed"
   then
     finished ← at_get index Date_Finished;
     empty ← cell_not finished;
     if empty : bool
     then at_set_text index Date_Finished (with_Date_Finished today)
     else mret tt
   else mret tt) ;;
  match cover_file with
  | Some _ =>
      cover_path ← handle_cover_upload cover_file isbn;
      match cover_path with
      | Some p =>
          if truthy p
          then at_set_text index Cover_Image (with_Cover_Image p)
          else mret tt
      | None => mret tt
      end
  | None => mret tt
  end ;;
  save_data ;;
  emit (st_success "Book updated successfully!").

(** [drop(index).reset_index(drop=True)] is [delete index] on the list. *)
Definition delete_book (index : nat) : M unit :=
  cover_path ← at_get index Cover_Image;
  ok ← cover_exists cover_path;
  (if ok : bool then os_remove (cell_text cover_path) else mret tt) ;;
  df ← get_df;
  put_df (delete index df) ;;
  save_data ;;
  emit (st_success "Book deleted successfully!").

(** ** Forms *)

Definition REQUIRED_MSG : string :=
  "Please fill in all required fields (marked with *)".

(** [not title or not author or not pages]. *)
Definition required_missing (title author : string) (pages : Z) : bool :=
  negb (truthy title) || negb (truthy author) || (pages =? 0).

(** The body of [show_add_book_form] from the widget values on;
    [submitted] is what [form_submit_button] returned. *)
Definition show_add_book_form (today : string)
    (title author isbn genre : string) (year pages : Z)
    (cover_file : option UploadedFile) (submitted : bool) : M unit :=
  if submitted then
    if required_missing title author pages
    then emit (st_error REQUIRED_MSG)
    else add_book today title author isbn genre year pages cover_file
  else mret tt.

(** What the widgets of the edit form hand back. *)
Record EditValues := {
  ev_title : string;
  ev_author : string;
  ev_isbn : string;
  ev_genre : string;
  ev_year : Z;
  ev_pages : Z;
  ev_current_page : Z;
  ev_status : string;
  ev_rating : Z;
  ev_review : string;
  ev_cover_file : option UploadedFile
}.

Definition GENRES : list string :=
  ["Fiction"; "Non-Fiction"; "Science Fiction"; "Fantasy"; "Mystery";
   "Thriller"; "Romance"; "Biography"; "History"; "Science"; "Self-Help";
   "Other"].

Definition STATUSES : list string :=
  ["Unread"; "Reading"; "Completed"; "On Hold"; "Dropped"].

(** [st.number_input(..., min_value=lo)] and
    [st.number_input(..., min_value=lo, max_value=hi)]: the widget returns
    a number inside its bounds. *)
Definition number_input_min (lo v : Z) : bool := lo <=? v.
Definition number_input (lo hi v : Z) : bool := (lo <=? v) && (v <=? hi).

(** The values the widgets of [show_edit_book_form] can return while the
    row being edited is [book]: bounds and choice lists as the form
    declares them, [this_year] being [datetime.date.today().year]. *)
Definition edit_widgets_return (this_year : Z) (book : Book)
    (v : EditValues) : bool :=
  (String.length (ev_title v) <=? 100)%nat
  && (String.length (ev_author v) <=? 50)%nat
  && (String.length (ev_isbn v) <=? 20)%nat
  && bool_decide (ev_genre v ∈ GENRES)
  && number_input 0 this_year (ev_year v)
  && number_input_min 1 (ev_pages v)
  && number_input 0 (Pages book) (ev_current_page v)
  && bool_decide (ev_status v ∈ STATUSES)
  && number_input 0 5 (ev_rating v).

(** The button pressed in the rerun, if any. *)
Inductive Click := NoClick | ClickUpdate | ClickCancel.

(** [library_df.iloc[index]] of the edit form: the row must exist. *)
Definition iloc (index : nat) : M Book := fun st =>
  match library_df st !! index with
  | Some b => Ok (b, st)
  | None => Stopped IndexError
  end.

Definition get_edit_index : M (option nat) := fun st =>
  Ok (edit_index st, st).

Definition show_edit_book_form (today : string) (v : EditValues)
    (click : Click) : M unit :=
  e ← get_edit_index;
  match e with
  | None => mret tt
  | Some index =>
      iloc index ;;
      match click with
      | ClickCancel => del_edit_index
      | ClickUpdate =>
          if required_missing (ev_title v) (ev_author v) (ev_pages v)
          then emit (st_error REQUIRED_MSG)
          else
            update_book today index (ev_title v) (ev_author v) (ev_isbn v)
              (ev_genre v) (ev_year v) (ev_pages v) (ev_current_page v)
              (ev_status v) (ev_rating v) (ev_review v) (ev_cover_file v) ;;
            del_edit_index
      | NoClick => mret tt
      end
  end.

(** ** Search text as a regular expression

    [Series.str.contains(pat)] is called with its defaults, and pandas'
    default is [regex=True]: a cell matches when [re.search(pat, cell)]
    finds something.  The part of [re] embedded here is the patterns made
    of ordinary characters, which match themselves, and of the dot, which
    matches any character but a newline.  A pattern with another special
    character is left out ([re_compile] returns [None]). *)

Inductive re_item :=
| re_char (c : ascii)
| re_dot.

Definition RE_SPECIAL : string := "\^$*+?{}[]|()".

Fixpoint re_compile (pat : string) : option (list re_item) :=
  match pat with
  | EmptyString => Some []
  | String c pat' =>
      if mem_ascii c RE_SPECIAL then None
      else
        match re_compile pat' with
        | Some items =>
            Some ((if Ascii.eqb c "." then re_dot else re_char c) :: items)
        | None => None
        end
  end.

Definition NEWLINE : ascii := ascii_of_nat 10.

Definition re_item_matches (i : re_item) (c : ascii) : bool :=
  match i with
  | re_char d => Ascii.eqb d c
  | re_dot => negb (Ascii.eqb c NEWLINE)
  end.

(** The pattern matches at the start of [s]. *)
Fixpoint re_match (items : list re_item) (s : string) : bool :=
  match items with
  | [] => true
  | i :: items' =>
      match s with
      | EmptyString => false
      | String c s' => re_item_matches i c && re_match items' s'
      end
  end.

(** The pattern matches somewhere in [s]. *)
Fixpoint re_search (items : list re_item) (s : string) : bool :=
  re_match items s
  || match s with
     | EmptyString => false
     | String _ s' => re_search items s'
     end.

(** ** Query *)

Record Filters := {
  search_query : string;
  genre_filter : list string;
  status_filter : list string;
  year_min : Z;
  year_max : Z;
  rating_filter : Z;
  sort_option : string
}.

(** [Series.isin(values)] on one cell. *)
Definition isin (cell : string) (values : list string) : bool :=
  existsb (String.eqb cell) values.

Inductive SortColumn := by_Date_Added | by_Title | by_Author | by_Rating.

Definition sort_mapping : list (string * (SortColumn * bool)) :=
  [("Date Added (Newest)", (by_Date_Added, false));
   ("Date Added (Oldest)", (by_Date_Added, true));
   ("Title (A-Z)", (by_Title, true));
   ("Title (Z-A)", (by_Title, false));
   ("Author (A-Z)", (by_Author, true));
   ("Author (Z-A)", (by_Author, false));
   ("Rating (High-Low)", (by_Rating, false));
   ("Rating (Low-High)", (by_Rating, true))].

(** [d.get(key, default)] on a dict literal. *)
Fixpoint dict_get {V} (d : list (string * V)) (key : string) (default : V) : V :=
  match d with
  | [] => default
  | (k, v) :: d' => if String.eqb k key then v else dict_get d' key default
  end.

(** [Series.str.lower().str.contains(pat)] on one cell: a cell that is
    no [str] gives a missing value, which the mask cannot hold. *)
Definition cell_contains (items : list re_item) (c : Cell) : option bool :=
  match c with
  | Str s => Some (re_search items (lower s))
  | NaN | Num _ => None
  end.

(** The text filter of one row, for a compiled search text. *)
Definition row_contains (items : list re_item) (b : Book) : option bool :=
  match cell_contains items (Title b), cell_contains items (Author b) with
  | Some in_title, Some in_author => Some (in_title || in_author)
  | _, _ => None
  end.

(** [df[mask]] for a mask computed row by row. *)
Fixpoint keep_rows (test : Book -> option bool) (df : list Book)
    : Res (list Book) :=
  match df with
  | [] => Ok []
  | b :: df' =>
      match test b, keep_rows test df' with
      | Some keep, Ok rest => Ok (if keep then b :: rest else rest)
      | None, _ => Stopped CellOutsideModel
      | _, Stopped why => Stopped why
      end
  end.

(** The first filter of [filter_and_sort_books]. *)
Definition text_filter (query : string) (df : list Book) : Res (list Book) :=
  if truthy query then
    let search := lower query in
    match re_compile search with
    | Some items => keep_rows (row_contains items) df
    | None => Stopped PatternOutsideFragment
    end
  else Ok df.

Section QueryEngine.

(** [DataFrame.sort_values(by=column, ascending=flag)] is pandas code;
    the script calls it with the default [kind], and nothing in the
    script fixes the order it leaves tied rows in. *)
Variable sort_values : SortColumn -> bool -> list Book -> list Book.

(** [library_df] is [st.session_state.library_df.copy()]. *)
Definition filter_and_sort_books (filters : Filters)
    (library_df : list Book) : Res (list Book) :=
  match text_filter (search_query filters) library_df with
  | Stopped why => Stopped why
  | Ok filtered_df =>
      let filtered_df :=
        match genre_filter filters with
        | [] => filtered_df
        | _ :: _ =>
            List.filter (fun b => isin (Genre b) (genre_filter filters))
              filtered_df
        end in
      let filtered_df :=
        match status_filter filters with
        | [] => filtered_df
        | _ :: _ =>
            List.filter (fun b => isin (Status b) (status_filter filters))
              filtered_df
        end in
      let filtered_df :=
        List.filter
          (fun b => (year_min filters <=? Publication_Year b)
                    && (Publication_Year b <=? year_max filters))
          filtered_df in
      let filtered_df :=
        List.filter (fun b => rating_filter filters <=? Rating b)
          filtered_df in
      let '(sort_column, ascending) :=
        dict_get sort_mapping (sort_option filters) (by_Date_Added, false) in
      Ok (sort_values sort_column ascending filtered_df)
  end.

End QueryEngine.

(** ** Statistics *)

Fixpoint Series_sum (xs : list Z) : Z :=
  match xs with
  | [] => 0
  | x :: xs' => x + Series_sum xs'
  end.

(** A sum as a 64-bit integer column gives it: modulo [2^64], read as a
    signed number.  (A frame built in the session may hold Python
    integers, whose sum does not wrap; the two agree in the 64-bit
    range.) *)
Definition wrap64 (z : Z) : Z :=
  (z + 2 ^ 63) mod 2 ^ 64 - 2 ^ 63.

(** The numbers a 64-bit integer holds. *)
Definition int64_range (z : Z) : Prop := - 2 ^ 63 <= z < 2 ^ 63.

(** [Series.mean()] of a non-empty integer column, as the exact quotient
    of the sum by the number of cells. *)
Definition Series_mean (xs : list Z) : Q :=
  Qmake (Series_sum xs) (Pos.of_nat (length xs)).

Definition where_Status (status : string) (df : list Book) : list Book :=
  List.filter (fun b => String.eqb (Status b) status) df.

(** The five metrics of [show_statistics]. *)
Record Metrics := {
  Total_Books : nat;
  Books_Read : nat;
  Total_Pages : Z;
  Average_Rating : Q;
  Pages_Read : Z
}.

(** [None] is the early return on an empty frame. *)
Definition show_statistics (library_df : list Book) : option Metrics :=
  match library_df with
  | [] => None
  | _ :: _ =>
      let read_pages :=
        wrap64
          (Series_sum (map Pages (where_Status "Completed" library_df))) in
      let reading_pages :=
        wrap64
          (Series_sum (map Current_Page (where_Status "Reading" library_df)))
      in
      Some {| Total_Books := length library_df;
              Books_Read := length (where_Status "Completed" library_df);
              Total_Pages := wrap64 (Series_sum (map Pages library_df));
              Average_Rating := Series_mean (map Rating library_df);
              Pages_Read := wrap64 (read_pages + reading_pages) |}
  end.

(** The average in the sidebar of [main]; [None] is the branch that
    writes that the library is empty. *)
Definition quick_stats_average (library_df : list Book) : option Q :=
  match library_df with
  | [] => None
  | _ :: _ => Some (Series_mean (map Rating library_df))
  end.
(** ** Definitions the statements below are written with *)

(** One call of [update_book]: the arguments after [index]. *)
Record UpdateArgs := {
  u_title : string;
  u_author : string;
  u_isbn : string;
  u_genre : string;
  u_year : Z;
  u_pages : Z;
  u_current_page : Z;
  u_status : string;
  u_rating : Z;
  u_review : string;
  u_cover_file : option UploadedFile
}.

Definition update_with (today : string) (index : nat) (a : UpdateArgs) : M unit :=
  update_book today index (u_title a) (u_author a) (u_isbn a) (u_genre a)
    (u_year a) (u_pages a) (u_current_page a) (u_status a) (u_rating a)
    (u_review a) (u_cover_file a).

(** The row [update_book] leaves at [index] when it found [b] there and
    ran to its end. *)
Definition updated_row (today : string) (a : UpdateArgs) (b : Book) : Book :=
  {| Title := Str (u_title a); Author := Str (u_author a);
     ISBN := Str (u_isbn a); Genre := u_genre a;
     Publication_Year := u_year a; Pages := u_pages a;
     Current_Page := u_current_page a; Status := u_status a;
     Rating := u_rating a; Review := Str (u_review a);
     Date_Added := Date_Added b;
     Date_Finished :=
       match Date_Finished b with
       | Str d =>
           if String.eqb (u_status a) "Completed" && negb (truthy d)
           then Str today else Str d
       | NaN => NaN
       | Num text => Num text
       end;
     Cover_Image :=
       match u_cover_file a with
       | Some f => Str (cover_filename_of (u_isbn a) (file_extension f))
       | None => Cover_Image b
       end |}.

(** The files [update_book] leaves. *)
Definition updated_files (a : UpdateArgs) (fs : gmap string string)
    : gmap string string :=
  match u_cover_file a with
  | Some f =>
      <[cover_filename_of (u_isbn a) (file_extension f) := getbuffer f]> fs
  | None => fs
  end.

(** An upload whose file gets a plain name in the cover folder, or no
    upload. *)
Definition upload_plain (cover_file : option UploadedFile) (isbn : string)
    : bool :=
  match cover_file with
  | Some f => plain_name (isbn ++ "." ++ file_extension f)
  | None => true
  end.

(** The path of a file of the cover folder: the folder, a slash, a plain
    name. *)
Definition plain_path (path : string) : bool :=
  match strip_prefix (COVER_IMAGE_FOLDER ++ "/") path with
  | Some n => plain_name n
  | None => false
  end.

(** A cover cell as the script writes it: empty, or the path of a file
    of the cover folder. *)
Definition cover_cell_written (c : Cell) : bool :=
  match c with
  | Str p => negb (truthy p) || plain_path p
  | NaN | Num _ => false
  end.

(** Every stored file is listed under its path in the cover folder, the
    one path the script writes it under. *)
Definition plain_store (fs : gmap string string) : Prop :=
  forall path : string, is_Some (fs !! path) -> plain_path path = true.

(** A stored file is referenced when some row names it as its cover. *)
Definition referenced (df : list Book) (path : string) : bool :=
  existsb (fun b => match Cover_Image b with
                    | Str p => String.eqb p path
                    | NaN | Num _ => false
                    end) df.

(** The stored files no row refers to. *)
Definition orphans (st : State) : list string :=
  List.filter (fun path => negb (referenced (library_df st) path))
    (map fst (map_to_list (files st))).

(** The average the specification words describe: the mean of the
    ratings above zero, and zero when there is none. *)
Definition rated_only_average (df : list Book) : Q :=
  match List.filter (fun r => 0 <? r) (map Rating df) with
  | [] => 0%Q
  | r :: rs => Series_mean (r :: rs)
  end.

(** The row [add_book] appends. *)
Definition added_row (today title author isbn genre : string) (year pages : Z)
    (cover_file : option UploadedFile) : Book :=
  {| Title := Str title; Author := Str author; ISBN := Str isbn;
     Genre := genre; Publication_Year := year; Pages := pages;
     Current_Page := 0; Status := "Unread"; Rating := 0; Review := Str "";
     Date_Added := today; Date_Finished := Str "";
     Cover_Image :=
       Str match cover_file with
           | Some f => cover_filename_of isbn (file_extension f)
           | None => ""
           end |}.

(** The files an upload under [isbn] leaves. *)
Definition uploaded_files (cover_file : option UploadedFile) (isbn : string)
    (fs : gmap string string) : gmap string string :=
  match cover_file with
  | Some f => <[cover_filename_of isbn (file_extension f) := getbuffer f]> fs
  | None => fs
  end.

(** Python's [p in s] on strings: [p] occurs in [s] as it is written. *)
Fixpoint starts_with (p s : string) : bool :=
  match p with
  | EmptyString => true
  | String c p' =>
      match s with
      | EmptyString => false
      | String d s' => Ascii.eqb c d && starts_with p' s'
      end
  end.

Fixpoint occurs_in (p s : string) : bool :=
  starts_with p s
  || match s with
     | EmptyString => false
     | String _ s' => occurs_in p s'
     end.

Definition cell_occurs (query : string) (c : Cell) : bool :=
  match c with
  | Str s => occurs_in (lower query) (lower s)
  | NaN | Num _ => false
  end.

(** The text match the specification words describe: the query, letter
    case set aside, occurs in the title or in the author. *)
Definition literal_match (query : string) (b : Book) : bool :=
  cell_occurs query (Title b) || cell_occurs query (Author b).

(** A search text none of whose characters is special to [re]. *)
Fixpoint plain_text (s : string) : bool :=
  match s with
  | EmptyString => true
  | String c s' =>
      negb (mem_ascii c RE_SPECIAL) && negb (Ascii.eqb c ".") && plain_text s'
  end.

(** Title and author of a row are [str] objects of ASCII text. *)
Definition ascii_row (b : Book) : bool :=
  match Title b, Author b with
  | Str t, Str a => is_ascii t && is_ascii a
  | _, _ => false
  end.

(** The arguments [show_edit_book_form] passes on to [update_book]. *)
Definition form_args (v : EditValues) : UpdateArgs :=
  {| u_title := ev_title v; u_author := ev_author v; u_isbn := ev_isbn v;
     u_genre := ev_genre v; u_year := ev_year v; u_pages := ev_pages v;
     u_current_page := ev_current_page v; u_status := ev_status v;
     u_rating := ev_rating v; u_review := ev_review v;
     u_cover_file := ev_cover_file v |}.

(** *** Sample data *)

Definition empty_state : State :=
  {| library_df := []; edit_index := None; files := ∅; data_file := None;
     shown := [] |}.

(** The two records of the specification's example. *)
Definition record_A : Book :=
  {| Title := Str "A"; Author := Str "Ann"; ISBN := Str ""; Genre := "Fiction";
     Publication_Year := 2001; Pages := 200; Current_Page := 200;
     Status := "Completed"; Rating := 4; Review := Str "";
     Date_Added := "2024-01-01"; Date_Finished := Str "2024-02-01";
     Cover_Image := Str "" |}.

Definition record_B : Book :=
  {| Title := Str "B"; Author := Str "Bob"; ISBN := Str ""; Genre := "Fiction";
     Publication_Year := 1999; Pages := 100; Current_Page := 0;
     Status := "Unread"; Rating := 0; Review := Str "";
     Date_Added := "2024-01-02"; Date_Finished := Str ""; Cover_Image := Str "" |}.

Definition dune : Book :=
  {| Title := Str "Dune"; Author := Str "Frank Herbert"; ISBN := Str "111";
     Genre := "Science Fiction"; Publication_Year := 1965; Pages := 100;
     Current_Page := 0; Status := "Reading"; Rating := 0; Review := Str "";
     Date_Added := "2024-01-01"; Date_Finished := Str "";
     Cover_Image := Str "book_covers/111.jpg" |}.

(** A session with [dune] stored, its cover on disk, the row open in the
    edit form. *)
Definition dune_state : State :=
  {| library_df := [dune]; edit_index := Some 0%nat;
     files := {[ "book_covers/111.jpg" := "old cover" ]};
     data_file := Some [dune]; shown := [] |}.

(** The edit form filled in to halve the page count and to move the
    bookmark to page 80, which the form allows up to the stored 100. *)
Definition fewer_pages : EditValues :=
  {| ev_title := "Dune"; ev_author := "Frank Herbert"; ev_isbn := "111";
     ev_genre := "Science Fiction"; ev_year := 1965; ev_pages := 50;
     ev_current_page := 80; ev_status := "Reading"; ev_rating := 0;
     ev_review := ""; ev_cover_file := None |}.

(** An update that corrects the ISBN and uploads a new cover. *)
Definition new_isbn_new_cover : UpdateArgs :=
  {| u_title := "Dune"; u_author := "Frank Herbert"; u_isbn := "222";
     u_genre := "Science Fiction"; u_year := 1965; u_pages := 100;
     u_current_page := 0; u_status := "Reading"; u_rating := 0;
     u_review := "";
     u_cover_file := Some {| name := "front.jpg"; getbuffer := "new cover" |} |}.

(** An update that marks the book as read. *)
Definition mark_completed : UpdateArgs :=
  {| u_title := "Dune"; u_author := "Frank Herbert"; u_isbn := "111";
     u_genre := "Science Fiction"; u_year := 1965; u_pages := 100;
     u_current_page := 100; u_status := "Completed"; u_rating := 5;
     u_review := "A classic."; u_cover_file := None |}.

(** A second record with the ISBN of [dune], and a cover for it in
    another image format. *)
Definition dune_again : Book :=
  {| Title := Str "Dune (2nd copy)"; Author := Str "Frank Herbert"; ISBN := Str "111";
     Genre := "Science Fiction"; Publication_Year := 1965; Pages := 100;
     Current_Page := 0; Status := "Unread"; Rating := 0; Review := Str "";
     Date_Added := "2024-01-03"; Date_Finished := Str ""; Cover_Image := Str "" |}.

Definition two_copies_state : State :=
  {| library_df := [dune; dune_again]; edit_index := None;
     files := {[ "book_covers/111.jpg" := "old cover" ]};
     data_file := Some [dune; dune_again]; shown := [] |}.

Definition png_cover_for_copy : UpdateArgs :=
  {| u_title := "Dune (2nd copy)"; u_author := "Frank Herbert";
     u_isbn := "111"; u_genre := "Science Fiction"; u_year := 1965;
     u_pages := 100; u_current_page := 0; u_status := "Unread";
     u_rating := 0; u_review := "";
     u_cover_file := Some {| name := "scan.png"; getbuffer := "png cover" |} |}.

(** A record stored without an ISBN, with the cover it was given. *)
Definition notebook : Book :=
  {| Title := Str "Notebook"; Author := Str "Anon"; ISBN := Str "";
     Genre := "Other"; Publication_Year := 2020; Pages := 80;
     Current_Page := 0; Status := "Unread"; Rating := 0; Review := Str "";
     Date_Added := "2024-01-04"; Date_Finished := Str "";
     Cover_Image := Str "book_covers/.jpg" |}.

Definition notebook_state : State :=
  {| library_df := [notebook]; edit_index := None;
     files := {[ "book_covers/.jpg" := "first cover" ]};
     data_file := Some [notebook]; shown := [] |}.

(** A frame as [pd.read_csv] hands it over at the start of a session
    whose data file holds a finished book with its cover and a book
    added later and left as it was: the empty fields of the second row
    are [NaN]. *)
Definition finished_book : Book :=
  {| Title := Str "Dune"; Author := Str "Frank Herbert";
     ISBN := Str "978-0441172719"; Genre := "Science Fiction";
     Publication_Year := 1965; Pages := 100; Current_Page := 100;
     Status := "Completed"; Rating := 5; Review := Str "A classic.";
     Date_Added := "2024-01-01"; Date_Finished := Str "2024-02-01";
     Cover_Image := Str "book_covers/978-0441172719.jpg" |}.

Definition reloaded_book : Book :=
  {| Title := Str "Foundation"; Author := Str "Isaac Asimov";
     ISBN := Str "978-0553293357"; Genre := "Science Fiction";
     Publication_Year := 1951; Pages := 255; Current_Page := 0;
     Status := "Unread"; Rating := 0; Review := NaN;
     Date_Added := "2024-01-02"; Date_Finished := NaN;
     Cover_Image := NaN |}.

Definition reloaded_state : State :=
  {| library_df := [finished_book; reloaded_book]; edit_index := None;
     files := {[ "book_covers/978-0441172719.jpg" := "cover" ]};
     data_file := Some [finished_book; reloaded_book]; shown := [] |}.

(** An update that marks the reloaded book as read. *)
Definition finish_reloaded : UpdateArgs :=
  {| u_title := "Foundation"; u_author := "Isaac Asimov";
     u_isbn := "978-0553293357"; u_genre := "Science Fiction";
     u_year := 1951; u_pages := 255; u_current_page := 255;
     u_status := "Completed"; u_rating := 4; u_review := "Read at last.";
     u_cover_file := None |}.

(** ** The pages of the script

    [show_book_card] and [main] draw a page and react to its buttons.  Of
    what they draw, [shown] keeps the cover images and the messages of
    the operations; headings, captions and charts are not recorded.  What
    the widgets of a rerun return is an input of the rerun. *)

(** [st.session_state.edit_index = index]. *)
Definition set_edit_index (index : nat) : M unit := fun st =>
  Ok (tt, {| library_df := library_df st; edit_index := Some index;
             files := files st; data_file := data_file st;
             shown := shown st |}).

(** A page computation: [None] stands for a card whose progress bar this
    embedding does not cover (see [bar_embedded]). *)
Definition Page (A : Type) : Type := State -> option (Res (A * State)).

(** What the two buttons of a card returned. *)
Record CardButtons := {
  edit_pressed : bool;
  delete_pressed : bool
}.

Definition no_press : CardButtons :=
  {| edit_pressed := false; delete_pressed := false |}.

(** The card draws a progress bar for the rows whose status is [Reading]
    or [Completed], at [int((Current Page / Pages) * 100)], a floating
    point value that [st.progress] accepts between 0 and 100 only.  For
    a current page between 0 and a page count of at least 1 the value is
    in that range; the other rows of the two statuses are left out. *)
Definition bar_embedded (book : Book) : bool :=
  if isin (Status book) ["Reading"; "Completed"]
  then (1 <=? Pages book) && (0 <=? Current_Page book)
       && (Current_Page book <=? Pages book)
  else true.

Definition show_book_card (book : Book) (index : nat)
    (buttons : CardButtons) : Page unit := fun st =>
  if bar_embedded book then
    Some ((display_cover (Cover_Image book) ;;
           (if edit_pressed buttons then set_edit_index index else mret tt) ;;
           (if delete_pressed buttons then delete_book index else mret tt)) st)
  else None.

(** [enumerate(rows)], counting from [index]. *)
Fixpoint enumerate_from (index : nat) (rows : list Book) : list (nat * Book) :=
  match rows with
  | [] => []
  | book :: rows' => (index, book) :: enumerate_from (S index) rows'
  end.

(** The loop of [main] over [enumerate(filtered_books.iterrows())];
    [buttons index] is what the buttons of the card drawn with [index]
    returned. *)
Fixpoint show_cards (cards : list (nat * Book)) (buttons : nat -> CardButtons)
    : Page unit :=
  match cards with
  | [] => fun st => Some (Ok (tt, st))
  | (index, book) :: cards' => fun st =>
      match show_book_card book index (buttons index) st with
      | Some (Ok (_, st')) => show_cards cards' buttons st'
      | Some (Stopped why) => Some (Stopped why)
      | None => None
      end
  end.

(** The choices of the navigation radio. *)
Inductive AppMode := My_Library | Add_Book | Statistics.

(** What the widgets of the add form returned. *)
Record AddValues := {
  av_title : string;
  av_author : string;
  av_isbn : string;
  av_genre : string;
  av_year : Z;
  av_pages : Z;
  av_cover_file : option UploadedFile;
  av_submitted : bool
}.

(** One run of the script: the date of the day and what every widget
    returned. *)
Record Rerun := {
  r_today : string;
  r_app_mode : AppMode;
  r_filters : Filters;
  r_buttons : nat -> CardButtons;
  r_edit : EditValues;
  r_edit_click : Click;
  r_add : AddValues
}.

Section Pages.

Variable sort_values : SortColumn -> bool -> list Book -> list Book.

(** The content part of [main]; the sidebar writes text only. *)
Definition main (inputs : Rerun) : Page unit := fun st =>
  match r_app_mode inputs with
  | My_Library =>
      match library_df st with
      | [] => Some (Ok (tt, st))
      | _ :: _ =>
          match filter_and_sort_books sort_values (r_filters inputs)
                  (library_df st) with
          | Stopped why => Some (Stopped why)
          | Ok filtered_books =>
              match filtered_books with
              | [] => Some (Ok (tt, st))
              | _ :: _ =>
                  match show_cards (enumerate_from 0 filtered_books)
                          (r_buttons inputs) st with
                  | Some (Ok (_, st')) =>
                      Some (show_edit_book_form (r_today inputs)
                              (r_edit inputs) (r_edit_click inputs) st')
                  | Some (Stopped why) => Some (Stopped why)
                  | None => None
                  end
              end
          end
      end
  | Add_Book =>
      let a := r_add inputs in
      Some (show_add_book_form (r_today inputs) (av_title a) (av_author a)
              (av_isbn a) (av_genre a) (av_year a) (av_pages a)
              (av_cover_file a) (av_submitted a) st)
  | Statistics => Some (Ok (tt, st))
  end.

(** A session: the script runs once per interaction, on the session
    state the run before left. *)
Fixpoint session (reruns : list Rerun) : Page unit :=
  match reruns with
  | [] => fun st => Some (Ok (tt, st))
  | inputs :: reruns' => fun st =>
      match main inputs st with
      | Some (Ok (_, st')) => session reruns' st'
      | Some (Stopped why) => Some (Stopped why)
      | None => None
      end
  end.

End Pages.

(** *** Predicates of the statements on the added code *)

(** The tests of [filter_and_sort_books] after the text filter, on one
    row. *)
Definition passes_selection (filters : Filters) (b : Book) : bool :=
  match genre_filter filters with
  | [] => true
  | _ :: _ => isin (Genre b) (genre_filter filters)
  end
  && match status_filter filters with
     | [] => true
     | _ :: _ => isin (Status b) (status_filter filters)
     end
  && ((year_min filters <=? Publication_Year b)
      && (Publication_Year b <=? year_max filters))
  && (rating_filter filters <=? Rating b).

(** The text test on one row: the compiled search text is found in the
    title or the author, and every row passes an empty search text. *)
Definition passes_text (query : string) (items : list re_item) (b : Book)
    : bool :=
  if truthy query
  then match row_contains items b with
       | Some found => found
       | None => false
       end
  else true.

(** [narrow] asks for at least what [wide] asks for: the same search
    text, or any where [wide] has none; a selection of genres and of
    statuses inside the one of [wide], or any where [wide] has none; a
    year range inside; a rating floor at least as high. *)
Definition narrower (narrow wide : Filters) : Prop :=
  (search_query wide = "" \/ search_query narrow = search_query wide)
  /\ (genre_filter wide = []
      \/ (genre_filter narrow <> []
          /\ forall g : string,
               In g (genre_filter narrow) -> In g (genre_filter wide)))
  /\ (status_filter wide = []
      \/ (status_filter narrow <> []
          /\ forall s : string,
               In s (status_filter narrow) -> In s (status_filter wide)))
  /\ year_min wide <= year_min narrow
  /\ year_max narrow <= year_max wide
  /\ rating_filter wide <= rating_filter narrow.

(** A card can be drawn: its progress bar is embedded and its cover cell
    is a [str]. *)
Definition card_drawn (b : Book) : Prop :=
  bar_embedded b = true /\ is_str (Cover_Image b) = true.

(** The required fields of a row are filled in. *)
Definition required_present (b : Book) : Prop :=
  Title b <> Str "" /\ Author b <> Str "" /\ Pages b <> 0.

(** The data file holds the frame, or it was never written and the frame
    is empty. *)
Definition persisted (st : State) : Prop :=
  data_file st = Some (library_df st)
  \/ (data_file st = None /\ library_df st = []).

(** Two states that differ in what was shown at most. *)
Definition same_store (st st' : State) : Prop :=
  library_df st' = library_df st
  /\ edit_index st' = edit_index st
  /\ files st' = files st
  /\ data_file st' = data_file st.

(** A frame in which [dune], unrated, precedes a rated copy that has a
    cover of its own. *)
Definition dune_rated : Book :=
  {| Title := Str "Dune Messiah"; Author := Str "Frank Herbert";
     ISBN := Str "333"; Genre := "Science Fiction";
     Publication_Year := 1969; Pages := 200; Current_Page := 200;
     Status := "Completed"; Rating := 4; Review := Str "";
     Date_Added := "2024-01-05"; Date_Finished := Str "2024-02-01";
     Cover_Image := Str "book_covers/333.jpg" |}.

Definition rated_copy_state : State :=
  {| library_df := [dune; dune_rated]; edit_index := None;
     files := <[ "book_covers/111.jpg" := "old cover" ]>
                {[ "book_covers/333.jpg" := "other cover" ]};
     data_file := Some [dune; dune_rated]; shown := [] |}.

(** A frame in which B precedes A, and the filter that asks for a
    rating of 1 at least. *)
Definition B_then_A_state : State :=
  {| library_df := [record_B; record_A]; edit_index := None; files := ∅;
     data_file := Some [record_B; record_A]; shown := [] |}.

Definition rated_only : Filters :=
  {| search_query := ""; genre_filter := []; status_filter := [];
     year_min := 0; year_max := 2026; rating_filter := 1;
     sort_option := "Date Added (Newest)" |}.

(** The filter that searches for [Herb] among the books of every
    rating. *)
Definition search_herb : Filters :=
  {| search_query := "Herb"; genre_filter := []; status_filter := [];
     year_min := 0; year_max := 2026; rating_filter := 0;
     sort_option := "Title (A-Z)" |}.

Definition no_filter : Filters :=
  {| search_query := ""; genre_filter := []; status_filter := [];
     year_min := 0; year_max := 2026; rating_filter := 0;
     sort_option := "Date Added (Newest)" |}.

(** Sample reruns: the Delete button, or the Edit button, of the card at
    position [k] and no other button; an add form left alone; the
    library page asked for rated books, Delete pressed on its first
    card; the add page submitted with a book. *)
Definition delete_at (k : nat) : nat -> CardButtons := fun j =>
  if Nat.eqb j k
  then {| edit_pressed := false; delete_pressed := true |}
  else no_press.

Definition edit_at (k : nat) : nat -> CardButtons := fun j =>
  if Nat.eqb j k
  then {| edit_pressed := true; delete_pressed := false |}
  else no_press.

Definition add_form_untouched : AddValues :=
  {| av_title := ""; av_author := ""; av_isbn := ""; av_genre := "Fiction";
     av_year := 0; av_pages := 1; av_cover_file := None;
     av_submitted := false |}.

Definition delete_first_card : Rerun :=
  {| r_today := "2026-11-03"; r_app_mode := My_Library;
     r_filters := rated_only; r_buttons := delete_at 0;
     r_edit := fewer_pages; r_edit_click := NoClick;
     r_add := add_form_untouched |}.

Definition edit_first_card : Rerun :=
  {| r_today := "2026-11-03"; r_app_mode := My_Library;
     r_filters := rated_only; r_buttons := edit_at 0;
     r_edit := fewer_pages; r_edit_click := NoClick;
     r_add := add_form_untouched |}.

Definition submit_edit_form : Rerun :=
  {| r_today := "2026-11-04"; r_app_mode := My_Library;
     r_filters := rated_only; r_buttons := fun _ => no_press;
     r_edit := fewer_pages; r_edit_click := ClickUpdate;
     r_add := add_form_untouched |}.

Definition add_dune : Rerun :=
  {| r_today := "2026-11-03"; r_app_mode := Add_Book;
     r_filters := no_filter; r_buttons := fun _ => no_press;
     r_edit := fewer_pages; r_edit_click := NoClick;
     r_add := {| av_title := "Dune"; av_author := "Frank Herbert";
                 av_isbn := "111"; av_genre := "Science Fiction";
                 av_year := 1965; av_pages := 100; av_cover_file := None;
                 av_submitted := true |} |}.

(** The values the widgets of the edit form start from: the stored row.
    The form can be drawn when its widgets accept them. *)
Definition form_initial (book : Book) : EditValues :=
  {| ev_title := cell_text (Title book); ev_author := cell_text (Author book);
     ev_isbn := cell_text (ISBN book); ev_genre := Genre book;
     ev_year := Publication_Year book; ev_pages := Pages book;
     ev_current_page := Current_Page book; ev_status := Status book;
     ev_rating := Rating book; ev_review := cell_text (Review book);
     ev_cover_file := None |}.

(** * Properties *)

(** ** Running the operations *)

Lemma truthy_empty_iff (s : string) : truthy s = false <-> s = "".
Proof. destruct s; simpl; split; congruence. Qed.

Lemma truthy_cover_filename (isbn ext : string) :
  truthy (cover_filename_of isbn ext) = true.
Proof. reflexivity. Qed.

Lemma cover_filename_nonempty (isbn ext : string) :
  cover_filename_of isbn ext <> "".
Proof. discriminate. Qed.

Lemma strip_cover_folder (n : string) :
  strip_prefix (COVER_IMAGE_FOLDER ++ "/") (COVER_IMAGE_FOLDER ++ "/" ++ n)
  = Some n.
Proof. reflexivity. Qed.

(** A plain name in the cover folder can be written, whatever the folder
    holds. *)
Lemma write_target_plain (fs : gmap string string) (isbn ext : string) :
  plain_name (isbn ++ "." ++ ext) = true ->
  write_target fs (cover_filename_of isbn ext) = Writable.
Proof.
  intros H. unfold write_target, cover_filename_of.
  rewrite strip_cover_folder, H. reflexivity.
Qed.

Lemma object_column_lookup (column : Book -> Cell) (df : list Book) (i : nat)
    (b : Book) :
  df !! i = Some b -> is_str (column b) = true ->
  object_column column df = true.
Proof.
  intros Hb Hs. unfold object_column. apply existsb_exists.
  exists b. split; [|exact Hs].
  apply list_elem_of_In. eapply list_elem_of_lookup_2. exact Hb.
Qed.

Lemma object_column_insert (column : Book -> Cell) (df : list Book) (i : nat)
    (x : Book) :
  (i < length df)%nat -> is_str (column x) = true ->
  object_column column (<[i := x]> df) = true.
Proof.
  intros Hi Hs. apply (object_column_lookup column _ i x); [|exact Hs].
  apply list_lookup_insert_eq. exact Hi.
Qed.

Lemma str_row_cells (b : Book) :
  str_row b = true ->
  exists t au i r d c : string,
    Title b = Str t /\ Author b = Str au /\ ISBN b = Str i
    /\ Review b = Str r /\ Date_Finished b = Str d /\ Cover_Image b = Str c.
Proof.
  unfold str_row. intros H.
  repeat (apply andb_prop in H as [H ?]).
  destruct (Title b), (Author b), (ISBN b), (Review b), (Date_Finished b),
    (Cover_Image b); try discriminate.
  eexists _, _, _, _, _, _. repeat split.
Qed.

Ltac run_step :=
  progress (cbn [library_df edit_index files data_file shown];
            rewrite ?truthy_cover_filename;
            rewrite ?list_insert_insert_eq;
            rewrite ?list_lookup_insert_eq by (rewrite ?length_insert; lia);
            rewrite ?object_column_insert
              by (solve [rewrite ?length_insert; lia | reflexivity])).

Lemma handle_cover_upload_ok (cover_file : option UploadedFile) (isbn : string)
    (st : State) :
  upload_plain cover_file isbn = true ->
  handle_cover_upload cover_file isbn st =
    Ok (match cover_file with
        | Some f => Some (cover_filename_of isbn (file_extension f))
        | None => None
        end,
        {| library_df := library_df st; edit_index := edit_index st;
           files := uploaded_files cover_file isbn (files st);
           data_file := data_file st; shown := shown st |}).
Proof.
  intros H. destruct cover_file as [f|]; [|destruct st; reflexivity].
  cbn [upload_plain] in H.
  unfold handle_cover_upload, mbind, M_bind, write_file.
  rewrite (write_target_plain _ _ _ H). reflexivity.
Qed.

Lemma add_book_ok (today title author isbn genre : string) (year pages : Z)
    (cover_file : option UploadedFile) (st : State) :
  upload_plain cover_file isbn = true ->
  let df' :=
    (library_df st ++
       [added_row today title author isbn genre year pages cover_file])%list in
  add_book today title author isbn genre year pages cover_file st =
    Ok (tt, {| library_df := df'; edit_index := edit_index st;
               files := uploaded_files cover_file isbn (files st);
               data_file := Some df';
               shown := shown st ++
                 [to_csv df'; st_success "Book added successfully!"] |}).
Proof.
  intros H df'. subst df'. unfold add_book.
  destruct cover_file as [f|].
  - unfold mbind, M_bind.
    rewrite (handle_cover_upload_ok (Some f) isbn st H).
    unfold added_row, get_df, put_df, save_data, emit;
      repeat (progress (unfold mbind, M_bind, mret, M_ret;
                        cbn [library_df edit_index files data_file shown
                             default uploaded_files]));
      rewrite <- app_assoc; reflexivity.
  - destruct st;
      unfold added_row, get_df, put_df, save_data, emit;
      repeat (progress (unfold mbind, M_bind, mret, M_ret;
                        cbn [library_df edit_index files data_file shown
                             default uploaded_files]));
      rewrite <- app_assoc; reflexivity.
Qed.

(** An upload whose file name has a slash stops before anything is
    appended. *)
Lemma add_book_stops (today title author isbn genre : string) (year pages : Z)
    (f : UploadedFile) (st : State) (why : Stop) :
  write_file (cover_filename_of isbn (file_extension f)) (getbuffer f) st
    = Stopped why ->
  add_book today title author isbn genre year pages (Some f) st = Stopped why.
Proof.
  intros H. unfold add_book, handle_cover_upload, mbind, M_bind.
  rewrite H. reflexivity.
Qed.

Lemma update_with_ok (today : string) (index : nat) (a : UpdateArgs)
    (st : State) (b : Book) :
  library_df st !! index = Some b ->
  str_row b = true ->
  upload_plain (u_cover_file a) (u_isbn a) = true ->
  let df' := <[index := updated_row today a b]> (library_df st) in
  update_with today index a st =
    Ok (tt, {| library_df := df'; edit_index := edit_index st;
               files := updated_files a (files st);
               data_file := Some df';
               shown := shown st ++
                 [to_csv df'; st_success "Book updated successfully!"] |}).
Proof.
  intros H Hs Hup df'. subst df'. pose proof (lookup_lt_Some _ _ _ H) as Hlt.
  destruct (str_row_cells b Hs) as (t & au & i & r & d & c & Ht & Hau & Hi
                                    & Hr & Hd & Hc).
  destruct b as [bt bau bi bg by_ bp bc bs br brv bda bdf bci].
  cbn [Title Author ISBN Review Date_Finished Cover_Image] in Ht, Hau, Hi, Hr,
    Hd, Hc.
  subst bt bau bi brv bdf bci.
  unfold update_with, update_book, mbind, M_bind, at_set, at_set_text, at_get,
    put_df, mret, M_ret, save_data, emit, cell_not.
  cbn [library_df edit_index files data_file shown].
  rewrite H.
  rewrite (object_column_lookup Title _ index _ H) by reflexivity.
  repeat run_step.
  unfold updated_row, updated_files.
  cbn [Date_Finished Date_Added Cover_Image].
  destruct (String.eqb (u_status a) "Completed") eqn:E; cbn [andb].
  - repeat run_step.
    cbn [Date_Finished with_Review with_Rating with_Status with_Current_Page
         with_Pages with_Publication_Year with_Genre with_ISBN with_Author
         with_Title].
    unfold mbind, M_bind, mret, M_ret.
    destruct (truthy d) eqn:T; cbn [negb].
    all: destruct (u_cover_file a) as [f|] eqn:Ef.
    all: repeat (first [ run_step
                       | rewrite handle_cover_upload_ok by exact Hup
                       | progress unfold uploaded_files, mbind, M_bind, mret,
                           M_ret ]).
    all: rewrite <- ?app_assoc.
    all: reflexivity.
  - destruct (u_cover_file a) as [f|] eqn:Ef.
    all: repeat (first [ run_step
                       | rewrite handle_cover_upload_ok by exact Hup
                       | progress unfold uploaded_files, mbind, M_bind, mret,
                           M_ret ]).
    all: rewrite <- ?app_assoc.
    all: reflexivity.
Qed.

Lemma update_with_stops (today : string) (index : nat) (a : UpdateArgs)
    (st : State) :
  library_df st !! index = None ->
  update_with today index a st = Stopped Enlargement.
Proof.
  intros H. unfold update_with, update_book, mbind, M_bind, at_set_text.
  rewrite H. reflexivity.
Qed.

Lemma Ok_state_inj (s1 s2 : State) :
  @Ok (unit * State) (tt, s1) = Ok (tt, s2) -> s1 = s2.
Proof. congruence. Qed.

Ltac inv_step H :=
  first
    [ progress (cbn [library_df edit_index files data_file shown] in H;
                rewrite ?truthy_cover_filename in H;
                rewrite ?list_insert_insert_eq in H;
                rewrite ?list_lookup_insert_eq in H
                  by (rewrite ?length_insert; lia))
    | match type of H with
      | context [if object_column ?c ?l then _ else _] =>
          destruct (object_column c l); [|discriminate H]
      end ].

Ltac inv_write H :=
  first
    [ inv_step H
    | match type of H with
      | context [write_target ?fs ?p] =>
          destruct (write_target fs p);
          [|discriminate H|discriminate H]
      end ].

(** Whatever the cells of the row, an update that runs to its end leaves
    [updated_row] in its place, the frame in the data file, and the edit
    form as it was. *)
Lemma update_with_inv (today : string) (index : nat) (a : UpdateArgs)
    (st st' : State) :
  update_with today index a st = Ok (tt, st') ->
  exists b : Book,
    library_df st !! index = Some b
    /\ library_df st' = <[index := updated_row today a b]> (library_df st)
    /\ data_file st' = Some (library_df st')
    /\ edit_index st' = edit_index st.
Proof.
  intros H. destruct (library_df st !! index) as [b|] eqn:Hb.
  2: { rewrite (update_with_stops today index a st Hb) in H. discriminate. }
  pose proof (lookup_lt_Some _ _ _ Hb) as Hlt.
  exists b. split; [reflexivity|].
  destruct b as [bt bau bi bg by_ bp bc bs br brv bda bdf bci].
  unfold update_with, update_book, mbind, M_bind, at_set, at_set_text, at_get,
    put_df, mret, M_ret, save_data, emit in H.
  cbn [library_df edit_index files data_file shown] in H.
  rewrite Hb in H.
  repeat inv_step H.
  unfold updated_row. cbn [Date_Finished Date_Added Cover_Image].
  destruct (String.eqb (u_status a) "Completed") eqn:E.
  - repeat inv_step H.
    cbn [Date_Finished with_Review with_Rating with_Status with_Current_Page
         with_Pages with_Publication_Year with_Genre with_ISBN with_Author
         with_Title] in H.
    unfold cell_not, stop, mbind, M_bind, mret, M_ret in H.
    destruct bdf as [d| |text]; [| |discriminate H].
    + destruct (truthy d) eqn:T; cbn [negb andb] in H |- *.
      all: destruct (u_cover_file a) as [f|] eqn:Ef.
      all: unfold handle_cover_upload, write_file, mbind, M_bind, mret,
             M_ret in H.
      all: repeat inv_write H.
      all: apply Ok_state_inj in H; subst st'.
      all: cbn [library_df edit_index files data_file shown].
      all: split; [reflexivity|split; reflexivity].
    + destruct (u_cover_file a) as [f|] eqn:Ef.
      all: unfold handle_cover_upload, write_file, mbind, M_bind, mret,
             M_ret in H.
      all: repeat inv_write H.
      all: apply Ok_state_inj in H; subst st'.
      all: cbn [library_df edit_index files data_file shown].
      all: split; [reflexivity|split; reflexivity].
  - cbn [andb].
    destruct (u_cover_file a) as [f|] eqn:Ef.
    all: unfold handle_cover_upload, write_file, mbind, M_bind, mret,
           M_ret in H.
    all: repeat inv_write H.
    all: apply Ok_state_inj in H; subst st'.
    all: cbn [library_df edit_index files data_file shown].
    all: split; [|split; reflexivity].
    all: destruct bdf; reflexivity.
Qed.

Lemma delete_book_ok (index : nat) (st : State) (b : Book) (p : string) :
  library_df st !! index = Some b ->
  Cover_Image b = Str p ->
  let df' := delete index (library_df st) in
  delete_book index st =
    Ok (tt, {| library_df := df'; edit_index := edit_index st;
               files := if truthy p then delete p (files st) else files st;
               data_file := Some df';
               shown := shown st ++
                 [to_csv df'; st_success "Book deleted successfully!"] |}).
Proof.
  intros H Hp df'. subst df'.
  unfold delete_book, mbind, M_bind, at_get, cover_exists, path_exists,
    os_remove, get_df, put_df, save_data, emit, mret, M_ret.
  rewrite H, Hp. cbn [cell_text].
  destruct (truthy p) eqn:T.
  - destruct (bool_decide (is_Some (files st !! p))) eqn:E;
      cbn [library_df edit_index files data_file shown];
      rewrite <- app_assoc; [reflexivity|].
    apply bool_decide_eq_false in E.
    rewrite delete_id; [reflexivity|].
    destruct (files st !! p) eqn:L; [|reflexivity].
    exfalso. apply E. eauto.
  - cbn [library_df edit_index files data_file shown].
    rewrite <- app_assoc. reflexivity.
Qed.

(** A row whose cover cell is [NaN] cannot be deleted: [os.path.exists]
    is handed a float. *)
Lemma delete_book_nan (index : nat) (st : State) (b : Book) :
  library_df st !! index = Some b ->
  Cover_Image b = NaN ->
  delete_book index st = Stopped TypeError.
Proof.
  intros H Hp. unfold delete_book, mbind, M_bind, at_get, cover_exists, stop.
  rewrite H, Hp. reflexivity.
Qed.

Lemma delete_book_stops (index : nat) (st : State) :
  library_df st !! index = None ->
  delete_book index st = Stopped KeyError.
Proof.
  intros H. unfold delete_book, mbind, M_bind, at_get. rewrite H. reflexivity.
Qed.

(** Whatever the cover cell, a deletion that runs to its end drops the
    row, writes the frame to the data file and leaves the edit form as
    it was. *)
Lemma delete_book_inv (index : nat) (st st' : State) :
  delete_book index st = Ok (tt, st') ->
  library_df st' = delete index (library_df st)
  /\ data_file st' = Some (library_df st')
  /\ edit_index st' = edit_index st.
Proof.
  intros H. destruct (library_df st !! index) as [b|] eqn:Hb.
  2: { rewrite (delete_book_stops index st Hb) in H. discriminate. }
  destruct (Cover_Image b) as [p| |text] eqn:Hc.
  - rewrite (delete_book_ok index st b p Hb Hc) in H.
    apply Ok_state_inj in H. subst st'.
    cbn [library_df data_file edit_index]. repeat split.
  - rewrite (delete_book_nan index st b Hb Hc) in H. discriminate.
  - unfold delete_book, mbind, M_bind, at_get, cover_exists, stop in H.
    rewrite Hb, Hc in H. discriminate.
Qed.

Lemma display_cover_missing (cover_path : string) (st : State) :
  files st !! cover_path = None \/ cover_path = "" ->
  display_cover (Str cover_path) st =
    Ok (tt, {| library_df := library_df st; edit_index := edit_index st;
               files := files st; data_file := data_file st;
               shown := shown st ++ [st_image PLACEHOLDER] |}).
Proof.
  intros H.
  unfold display_cover, cover_exists, mbind, M_bind, path_exists, mret, M_ret,
    emit.
  destruct (truthy cover_path) eqn:T.
  - destruct H as [H|H]; [|subst; discriminate].
    rewrite H. rewrite bool_decide_eq_false_2; [reflexivity|].
    intros [x Hx]. discriminate.
  - reflexivity.
Qed.

Lemma display_cover_present (cover_path : string) (st : State) :
  truthy cover_path = true ->
  is_Some (files st !! cover_path) ->
  display_cover (Str cover_path) st =
    Ok (tt, {| library_df := library_df st; edit_index := edit_index st;
               files := files st; data_file := data_file st;
               shown := shown st ++ [st_image cover_path] |}).
Proof.
  intros T H.
  unfold display_cover, cover_exists, mbind, M_bind, path_exists, mret, M_ret,
    emit.
  rewrite T. rewrite bool_decide_eq_true_2 by exact H. reflexivity.
Qed.

Lemma display_cover_nan (st : State) : display_cover NaN st = Stopped TypeError.
Proof. reflexivity. Qed.

(** ** Adding a record *)

(** When the upload, if there is one, gets a plain file name in the
    cover folder, [add_book] runs to its end and appends exactly one row
    to the frame, with the fields given and the starting values; the
    rows already there keep their place; the whole frame is written to
    the data file before the success message. *)
Lemma add_book_appends_one_row_for_plain_names
    (today title author isbn genre : string) (year pages : Z)
    (cover_file : option UploadedFile) (st : State) :
  upload_plain cover_file isbn = true ->
  exists (st' : State) (new : Book),
    add_book today title author isbn genre year pages cover_file st
      = Ok (tt, st')
    /\ library_df st' = (library_df st ++ [new])%list
    /\ length (library_df st') = S (length (library_df st))
    /\ (forall (i : nat) (b : Book),
          library_df st !! i = Some b -> library_df st' !! i = Some b)
    /\ library_df st' !! length (library_df st) = Some new
    /\ Title new = Str title /\ Author new = Str author /\ ISBN new = Str isbn
    /\ Genre new = genre /\ Publication_Year new = year /\ Pages new = pages
    /\ Date_Added new = today
    /\ Status new = "Unread"
    /\ Current_Page new = 0
    /\ Rating new = 0
    /\ Date_Finished new = Str ""
    /\ data_file st' = Some (library_df st')
    /\ shown st' =
         (shown st ++
            [to_csv (library_df st'); st_success "Book added successfully!"])%list.
Proof.
  intros Hup.
  eexists _, (added_row today title author isbn genre year pages cover_file).
  split; [apply add_book_ok; exact Hup|].
  cbn [library_df data_file shown].
  repeat split.
  - rewrite length_app. simpl. lia.
  - intros i b Hb. apply lookup_app_l_Some. exact Hb.
  - rewrite lookup_app_r by lia. rewrite Nat.sub_diag. reflexivity.
Qed.

(** C8. [add_book] does not append a record for every valid field set.
    With a cover file and an ISBN that has a slash, here [12/34], the
    cover is to be written to [book_covers/12/34.jpg]; the folder
    [book_covers/12] does not exist, [open] raises [FileNotFoundError],
    and the call ends there: on the empty library and on a library with
    a record, no row is appended, nothing is written to the data file
    and no success is reported.  Title, author and page count are filled
    in, so the add form passes the fields on. *)
Theorem add_book_stops_on_isbn_with_slash :
  required_missing "Dune" "Frank Herbert" 100 = false
  /\ show_add_book_form "2026-11-03" "Dune" "Frank Herbert" "12/34"
       "Science Fiction" 1965 100
       (Some {| name := "front.jpg"; getbuffer := "cover" |}) true empty_state
     = Stopped FileNotFoundError
  /\ add_book "2026-11-03" "Dune" "Frank Herbert" "12/34" "Science Fiction"
       1965 100 (Some {| name := "front.jpg"; getbuffer := "cover" |})
       empty_state
     = Stopped FileNotFoundError
  /\ add_book "2026-11-03" "Dune" "Frank Herbert" "12/34" "Science Fiction"
       1965 100 (Some {| name := "front.jpg"; getbuffer := "cover" |})
       dune_state
     = Stopped FileNotFoundError.
Proof.
  split; [reflexivity|].
  split; [vm_compute; reflexivity|].
  split; apply add_book_stops; vm_compute; reflexivity.
Qed.

(** C5. A submitted add form whose title or author is empty, or whose
    page count is missing (zero), is answered with the error message and
    nothing else: no row is appended, the frame has its old length, no
    file is stored, nothing is written to the data file, and the first
    and only effect of the run is the message. *)
Theorem add_form_rejects_missing_fields (today title author isbn genre : string)
    (year pages : Z) (cover_file : option UploadedFile) (st : State) :
  title = "" \/ author = "" \/ pages = 0 ->
  exists st' : State,
    show_add_book_form today title author isbn genre year pages cover_file
      true st = Ok (tt, st')
    /\ library_df st' = library_df st
    /\ length (library_df st') = length (library_df st)
    /\ files st' = files st
    /\ data_file st' = data_file st
    /\ edit_index st' = edit_index st
    /\ shown st' = (shown st ++ [st_error REQUIRED_MSG])%list.
Proof.
  intros H.
  assert (required_missing title author pages = true) as R.
  { unfold required_missing.
    destruct H as [-> | [-> | ->]]; simpl;
      rewrite ?orb_true_r; reflexivity. }
  unfold show_add_book_form. rewrite R.
  eexists. split; [reflexivity|].
  cbn [library_df edit_index files data_file shown]. repeat split.
Qed.

Lemma add_form_rejects_missing_fields_witness :
  ("" = "" \/ "X" = "" \/ 10 = 0)
  /\ exists st' : State,
       show_add_book_form "2024-01-05" "" "X" "" "Fiction" 2000 10 None
         true empty_state = Ok (tt, st')
       /\ library_df st' = library_df empty_state
       /\ length (library_df st') = length (library_df empty_state)
       /\ files st' = files empty_state
       /\ data_file st' = data_file empty_state
       /\ edit_index st' = edit_index empty_state
       /\ shown st' = (shown empty_state ++ [st_error REQUIRED_MSG])%list.
Proof.
  split.
  - left. reflexivity.
  - apply (add_form_rejects_missing_fields
             "2024-01-05" "" "X" "" "Fiction" 2000 10 None empty_state).
    left. reflexivity.
Defined.

(** ** Deleting a record *)

(** For every row whose cover cell is a [str], [delete_book] runs to its
    end and removes that row and no other: the frame is one shorter, the
    rows before [index] keep their position and the rows after it move
    up by one; the file the row named as its cover is gone from the
    store while every other file is untouched; showing the cover
    afterwards falls back to the placeholder image. *)
Lemma delete_book_removes_row_and_str_cover (index : nat) (st : State)
    (b : Book) (p : string) :
  library_df st !! index = Some b ->
  Cover_Image b = Str p ->
  exists st' : State,
    delete_book index st = Ok (tt, st')
    /\ library_df st' = delete index (library_df st)
    /\ S (length (library_df st')) = length (library_df st)
    /\ (forall j : nat, (j < index)%nat ->
          library_df st' !! j = library_df st !! j)
    /\ (forall j : nat, (index <= j)%nat ->
          library_df st' !! j = library_df st !! S j)
    /\ (p <> "" -> files st' !! p = None)
    /\ (forall path : string,
          path <> p -> files st' !! path = files st !! path)
    /\ exists st'' : State,
         display_cover (Cover_Image b) st' = Ok (tt, st'')
         /\ shown st'' = (shown st' ++ [st_image PLACEHOLDER])%list.
Proof.
  intros H Hp. pose proof (lookup_lt_Some _ _ _ H) as Hlt.
  eexists. split; [apply (delete_book_ok index st b p H Hp)|].
  cbn [library_df files shown].
  assert (forall path : string, path <> p ->
            (if truthy p then delete p (files st) else files st) !! path
            = files st !! path) as Hother.
  { intros path Hne. destruct (truthy p); [|reflexivity].
    apply lookup_delete_ne. congruence. }
  assert (p <> "" ->
            (if truthy p then delete p (files st) else files st) !! p = None)
    as Hgone.
  { intros Hne. destruct (truthy p) eqn:T.
    - apply lookup_delete_eq.
    - apply truthy_empty_iff in T. contradiction. }
  split; [reflexivity|].
  split; [rewrite length_delete by eauto; lia|].
  split; [intros j Hj; apply list_lookup_delete_lt; exact Hj|].
  split; [intros j Hj; apply list_lookup_delete_ge; exact Hj|].
  split; [exact Hgone|].
  split; [exact Hother|].
  rewrite Hp. eexists. split.
  - apply display_cover_missing. cbn [files].
    destruct (String.eqb p "") eqn:E.
    + right. apply String.eqb_eq in E. exact E.
    + left. apply Hgone. apply String.eqb_neq in E. exact E.
  - reflexivity.
Qed.

(** C9. [delete_book] does not remove every existing record.  A record
    added without a cover is stored with the empty text in its cover
    cell; [pd.read_csv] reads the empty field back as [NaN] when the
    next session starts.  On such a row [cover_path] is a float that is
    truthy, [os.path.exists(cover_path)] raises [TypeError], and the
    call ends before the row is dropped: the frame, the files and the
    data file are as they were.  The card of the row cannot be drawn
    either, [display_cover] stops in the same way. *)
Theorem delete_book_stops_on_reloaded_row :
  library_df reloaded_state !! 1%nat = Some reloaded_book
  /\ Cover_Image reloaded_book = NaN
  /\ delete_book 1 reloaded_state = Stopped TypeError
  /\ display_cover (Cover_Image reloaded_book) reloaded_state
     = Stopped TypeError
  /\ forall (index : nat) (st : State) (b : Book),
       library_df st !! index = Some b ->
       Cover_Image b = NaN ->
       delete_book index st = Stopped TypeError.
Proof.
  split; [reflexivity|]. split; [reflexivity|].
  split; [apply (delete_book_nan 1 reloaded_state reloaded_book); reflexivity|].
  split; [reflexivity|].
  exact delete_book_nan.
Qed.

(** ** Updating a record *)

Lemma updated_row_date_finished (today : string) (a : UpdateArgs) (b : Book)
    (d : string) :
  Date_Finished b = Str d ->
  (u_status a = "Completed" /\ d = "" ->
     Date_Finished (updated_row today a b) = Str today)
  /\ (~ (u_status a = "Completed" /\ d = "") ->
     Date_Finished (updated_row today a b) = Str d).
Proof.
  intros Hd. unfold updated_row. cbn [Date_Finished]. rewrite Hd.
  destruct (String.eqb (u_status a) "Completed") eqn:E;
    destruct (truthy d) eqn:T; cbn [andb negb].
  - split; [|reflexivity]. intros [_ He]. rewrite He in T. discriminate.
  - split; [reflexivity|]. intros Hn. exfalso. apply Hn. split.
    + apply String.eqb_eq. exact E.
    + apply truthy_empty_iff. exact T.
  - split; [|reflexivity]. intros [Hs _]. apply String.eqb_neq in E.
    contradiction.
  - split; [|reflexivity]. intros [Hs _]. apply String.eqb_neq in E.
    contradiction.
Qed.

(** On a row whose cells are [str] objects the date of completion is
    written as the claim C6 says: an update with a plain upload or none
    runs to its end, leaves today's date when the status given is
    [Completed] and the stored date was empty, and the stored date in
    every other case. *)
Lemma date_finished_written_on_str_rows (today : string) (index : nat)
    (a : UpdateArgs) (st : State) (b : Book) (d : string) :
  library_df st !! index = Some b ->
  str_row b = true ->
  Date_Finished b = Str d ->
  upload_plain (u_cover_file a) (u_isbn a) = true ->
  exists (st' : State) (b' : Book),
    update_with today index a st = Ok (tt, st')
    /\ library_df st' !! index = Some b'
    /\ (u_status a = "Completed" /\ d = "" -> Date_Finished b' = Str today)
    /\ (~ (u_status a = "Completed" /\ d = "") -> Date_Finished b' = Str d).
Proof.
  intros Hb Hs Hd Hup. eexists _, (updated_row today a b).
  split; [apply (update_with_ok today index a st b Hb Hs Hup)|].
  cbn [library_df]. split.
  - apply list_lookup_insert_eq. eapply lookup_lt_Some. exact Hb.
  - apply updated_row_date_finished. exact Hd.
Qed.

(** An update that runs to its end leaves a date of completion that is
    there, on the row it updates and on every other row. *)
Lemma update_keeps_date_finished (today : string) (i : nat) (a : UpdateArgs)
    (st st' : State) (index : nat) (b : Book) (d : string) :
  library_df st !! index = Some b ->
  Date_Finished b = Str d ->
  d <> "" ->
  update_with today i a st = Ok (tt, st') ->
  exists b' : Book,
    library_df st' !! index = Some b' /\ Date_Finished b' = Str d.
Proof.
  intros Hb Hd Hne Hrun.
  destruct (update_with_inv today i a st st' Hrun) as (bi & Hi & Hdf & _).
  rewrite Hdf.
  destruct (decide (i = index)) as [->|Hni].
  - rewrite Hb in Hi. injection Hi as <-.
    exists (updated_row today a b). split.
    + apply list_lookup_insert_eq. eapply lookup_lt_Some. exact Hb.
    + apply (updated_row_date_finished today a b d Hd).
      intros [_ He]. contradiction.
  - exists b. split; [|exact Hd].
    rewrite list_lookup_insert_ne by exact Hni. exact Hb.
Qed.

(** A cell that is [NaN] stays [NaN] through every update that runs to
    its end: [not nan] is [False]. *)
Lemma update_never_dates_nan (today : string) (index : nat) (a : UpdateArgs)
    (st st' : State) (b : Book) :
  library_df st !! index = Some b ->
  Date_Finished b = NaN ->
  update_with today index a st = Ok (tt, st') ->
  exists b' : Book,
    library_df st' !! index = Some b'
    /\ Status b' = u_status a
    /\ Date_Finished b' = NaN.
Proof.
  intros Hb Hd Hrun.
  destruct (update_with_inv today index a st st' Hrun) as (bi & Hi & Hdf & _).
  rewrite Hb in Hi. injection Hi as <-. rewrite Hdf.
  exists (updated_row today a b). split.
  - apply list_lookup_insert_eq. eapply lookup_lt_Some. exact Hb.
  - split; [reflexivity|].
    unfold updated_row. cbn [Date_Finished]. rewrite Hd. reflexivity.
Qed.

(** C6. [Date Finished] is not set by every update that gives the status
    [Completed] to a record whose date of completion is empty.  A record
    added and left alone is stored with the empty text as its date;
    [pd.read_csv] reads the empty field back as [NaN] when the next
    session starts, and [not nan] is [False].  The update that marks
    such a record as read runs to its end, stores the status
    [Completed], and leaves the date of completion missing; so does
    every later update. *)
Theorem update_leaves_reloaded_row_without_date :
  library_df reloaded_state !! 1%nat = Some reloaded_book
  /\ Date_Finished reloaded_book = NaN
  /\ u_status finish_reloaded = "Completed"
  /\ exists (st' : State) (b' : Book),
       update_with "2026-11-03" 1 finish_reloaded reloaded_state
         = Ok (tt, st')
       /\ library_df st' !! 1%nat = Some b'
       /\ Status b' = "Completed"
       /\ Date_Finished b' = NaN
       /\ Date_Finished b' <> Str "2026-11-03"
       /\ forall (today : string) (a : UpdateArgs) (st'' : State),
            update_with today 1 a st' = Ok (tt, st'') ->
            exists b'' : Book,
              library_df st'' !! 1%nat = Some b''
              /\ Date_Finished b'' = NaN.
Proof.
  split; [reflexivity|]. split; [reflexivity|]. split; [reflexivity|].
  assert (exists st' : State,
            update_with "2026-11-03" 1 finish_reloaded reloaded_state
              = Ok (tt, st')) as [st' Hrun].
  { eexists. vm_compute. reflexivity. }
  destruct (update_never_dates_nan "2026-11-03" 1 finish_reloaded
              reloaded_state st' reloaded_book eq_refl eq_refl Hrun)
    as (b' & Hb' & Hs & Hd).
  exists st', b'. split; [exact Hrun|]. split; [exact Hb'|].
  split; [exact Hs|]. split; [exact Hd|].
  split; [rewrite Hd; discriminate|].
  intros today a st'' Hnext.
  destruct (update_never_dates_nan today 1 a st' st'' b' Hb' Hd Hnext)
    as (b'' & Hb'' & _ & Hd'').
  exists b''. split; [exact Hb''|exact Hd''].
Qed.

(** [update_book] stores the page count and the current page as they are
    given. *)
Remark updated_row_pages (today : string) (a : UpdateArgs) (b : Book) :
  Pages (updated_row today a b) = u_pages a
  /\ Current_Page (updated_row today a b) = u_current_page a.
Proof. split; reflexivity. Qed.

(** When the form leaves the page count as stored, the bound of its
    current-page widget is the bound on the stored row. *)
Remark edit_form_bound_holds_for_same_pages (this_year : Z) (book : Book)
    (v : EditValues) :
  edit_widgets_return this_year book v = true ->
  ev_pages v = Pages book ->
  0 <= ev_current_page v <= ev_pages v.
Proof.
  unfold edit_widgets_return, number_input. intros H Hp.
  repeat (apply andb_prop in H as [H ?]).
  rewrite Hp. lia.
Qed.

Lemma show_edit_book_form_update (today : string) (v : EditValues)
    (st : State) (index : nat) (b : Book) :
  edit_index st = Some index ->
  library_df st !! index = Some b ->
  str_row b = true ->
  upload_plain (ev_cover_file v) (ev_isbn v) = true ->
  required_missing (ev_title v) (ev_author v) (ev_pages v) = false ->
  let df' := <[index := updated_row today (form_args v) b]> (library_df st) in
  show_edit_book_form today v ClickUpdate st =
    Ok (tt, {| library_df := df'; edit_index := None;
               files := updated_files (form_args v) (files st);
               data_file := Some df';
               shown := shown st ++
                 [to_csv df'; st_success "Book updated successfully!"] |}).
Proof.
  intros He Hb Hs Hup Hr df'. subst df'.
  pose proof (update_with_ok today index (form_args v) st b Hb Hs Hup) as Hrun.
  unfold update_with in Hrun. cbn [form_args u_title u_author u_isbn u_genre
    u_year u_pages u_current_page u_status u_rating u_review u_cover_file]
    in Hrun. cbn zeta in Hrun.
  unfold show_edit_book_form, get_edit_index, iloc, mbind, M_bind.
  rewrite He, Hb, Hr, Hrun. reflexivity.
Qed.

(** C2. The edit form bounds the current page by the page count stored
    before the edit, and [update_book] writes both numbers as given.  On
    a row of 100 pages the form accepts 50 pages with current page 80,
    and the row stored afterwards has its current page above its page
    count. *)
Theorem edit_form_stores_current_page_above_pages :
  edit_widgets_return 2026 dune fewer_pages = true
  /\ exists (st' : State) (b' : Book),
       show_edit_book_form "2026-11-03" fewer_pages ClickUpdate dune_state
         = Ok (tt, st')
       /\ library_df st' = [b']
       /\ Pages b' = 50
       /\ Current_Page b' = 80
       /\ ~ (0 <= Current_Page b' <= Pages b').
Proof.
  split; [vm_compute; reflexivity|].
  eexists _, (updated_row "2026-11-03" (form_args fewer_pages) dune).
  split.
  - apply (show_edit_book_form_update "2026-11-03" fewer_pages dune_state
             0 dune); reflexivity.
  - cbn [library_df]. split; [reflexivity|].
    split; [reflexivity|]. split; [reflexivity|].
    cbn [updated_row Pages Current_Page form_args fewer_pages u_pages
         u_current_page ev_pages ev_current_page]. lia.
Qed.

(** ** Cover files *)

(** When the new cover gets the file name the row already refers to, the
    upload replaces the content in place and the set of files with no
    row does not grow. *)
Remark update_same_name_overwrites (today : string) (index : nat)
    (a : UpdateArgs) (st : State) (b : Book) (f : UploadedFile) :
  library_df st !! index = Some b ->
  str_row b = true ->
  u_cover_file a = Some f ->
  plain_name (u_isbn a ++ "." ++ file_extension f) = true ->
  Cover_Image b = Str (cover_filename_of (u_isbn a) (file_extension f)) ->
  let path := cover_filename_of (u_isbn a) (file_extension f) in
  exists st' : State,
    update_with today index a st = Ok (tt, st')
    /\ files st' = <[path := getbuffer f]> (files st)
    /\ forall other : string,
         is_Some (files st' !! other) ->
         other = path \/ is_Some (files st !! other).
Proof.
  intros Hb Hs Hf Hplain Hname path. subst path.
  assert (upload_plain (u_cover_file a) (u_isbn a) = true) as Hup.
  { rewrite Hf. exact Hplain. }
  eexists.
  split; [apply (update_with_ok today index a st b Hb Hs Hup)|].
  cbn [files]. unfold updated_files. rewrite Hf.
  split; [reflexivity|].
  intros other Hp.
  destruct (decide (cover_filename_of (u_isbn a) (file_extension f) = other))
    as [<-|Hne].
  - left. reflexivity.
  - right. rewrite lookup_insert_ne in Hp by exact Hne. exact Hp.
Qed.

(** An update without a new cover leaves the cover cell as it is,
    whatever ISBN it writes: the file keeps the name it got from the
    ISBN given at the upload. *)
Remark update_without_cover_keeps_path (today : string) (a : UpdateArgs)
    (b : Book) :
  u_cover_file a = None ->
  ISBN (updated_row today a b) = Str (u_isbn a)
  /\ Cover_Image (updated_row today a b) = Cover_Image b.
Proof.
  intros H. unfold updated_row. cbn [ISBN Cover_Image]. rewrite H.
  split; reflexivity.
Qed.

(** C7. An update that uploads a new cover and changes the ISBN writes
    the new file under the new name and leaves the old file where it was:
    before the update every stored file is some row's cover, after it the
    old cover file is still stored and no row refers to it. *)
Theorem update_with_new_isbn_leaves_old_cover :
  orphans dune_state = []
  /\ exists (st' : State) (b' : Book),
       update_with "2026-11-03" 0 new_isbn_new_cover dune_state = Ok (tt, st')
       /\ library_df st' = [b']
       /\ Cover_Image b' = Str "book_covers/222.jpg"
       /\ files st' !! "book_covers/222.jpg" = Some "new cover"
       /\ files st' !! "book_covers/111.jpg" = Some "old cover"
       /\ referenced (library_df st') "book_covers/111.jpg" = false
       /\ orphans st' = ["book_covers/111.jpg"].
Proof.
  split; [vm_compute; reflexivity|].
  eexists _, (updated_row "2026-11-03" new_isbn_new_cover dune).
  split; [apply (update_with_ok "2026-11-03" 0 new_isbn_new_cover dune_state
                   dune); reflexivity|].
  split; [reflexivity|].
  split; [reflexivity|].
  split; [vm_compute; reflexivity|].
  split; [vm_compute; reflexivity|].
  split; [reflexivity|].
  vm_compute. reflexivity.
Qed.

(** C10, the claim as worded, at two rows with one ISBN: the second row
    gets a cover in another image format.  The upload does not touch the
    first row's cover file, and deleting the second row afterwards leaves
    that file in place. *)
Lemma same_isbn_other_extension_no_overwrite :
  library_df two_copies_state !! 0%nat = Some dune
  /\ library_df two_copies_state !! 1%nat = Some dune_again
  /\ ISBN dune = ISBN dune_again
  /\ exists (st' : State) (b' : Book),
       update_with "2026-11-03" 1 png_cover_for_copy two_copies_state
         = Ok (tt, st')
       /\ library_df st' = [dune; b']
       /\ ISBN b' = ISBN dune
       /\ Cover_Image b' = Str "book_covers/111.png"
       /\ Cover_Image b' <> Cover_Image dune
       /\ files st' !! "book_covers/111.jpg" = Some "old cover"
       /\ exists st'' : State,
            delete_book 1 st' = Ok (tt, st'')
            /\ library_df st'' = [dune]
            /\ files st'' !! "book_covers/111.jpg" = Some "old cover".
Proof.
  split; [reflexivity|]. split; [reflexivity|]. split; [reflexivity|].
  eexists _, (updated_row "2026-11-03" png_cover_for_copy dune_again).
  split; [apply (update_with_ok "2026-11-03" 1 png_cover_for_copy
                   two_copies_state dune_again); reflexivity|].
  split; [reflexivity|]. split; [reflexivity|]. split; [reflexivity|].
  split; [discriminate|].
  split; [vm_compute; reflexivity|].
  eexists. split.
  - apply (delete_book_ok 1 _
             (updated_row "2026-11-03" png_cover_for_copy dune_again)
             "book_covers/111.png"); reflexivity.
  - split; [reflexivity|]. vm_compute. reflexivity.
Qed.

Lemma delete_keeps_other_rows (l : list Book) (i j : nat) (b : Book) :
  l !! i = Some b -> i <> j -> In b (delete j l).
Proof.
  intros Hb Hne. apply list_elem_of_In.
  destruct (decide (i < j)%nat) as [Hlt|Hge].
  - apply (list_elem_of_lookup_2 _ i).
    rewrite list_lookup_delete_lt by exact Hlt. exact Hb.
  - destruct i as [|i]; [lia|].
    apply (list_elem_of_lookup_2 _ i).
    rewrite list_lookup_delete_ge by lia. exact Hb.
Qed.

(** C10. The cover path is [book_covers/{isbn}.{extension}], a function
    of the ISBN handed to the upload and of the extension of the
    uploaded file name.  Let a record of the library name that path as
    its cover.  Storing a cover under the same ISBN (the empty one too)
    and the same extension for another record, on adding it or on
    updating it, writes to that very path: the content the first record
    had there is replaced, both records name the path, and deleting
    either of the two removes the file while the other record, still in
    the frame, names it as its cover. *)
Theorem same_cover_path_is_shared (isbn : string) (g : UploadedFile)
    (st : State) (i : nat) (first : Book) :
  let path := cover_filename_of isbn (file_extension g) in
  plain_name (isbn ++ "." ++ file_extension g) = true ->
  library_df st !! i = Some first ->
  Cover_Image first = Str path ->
  (forall (today title author genre : string) (year pages : Z),
     exists (st1 : State) (second : Book),
       add_book today title author isbn genre year pages (Some g) st
         = Ok (tt, st1)
       /\ library_df st1 !! i = Some first
       /\ library_df st1 !! length (library_df st) = Some second
       /\ ISBN second = Str isbn
       /\ Cover_Image second = Str path
       /\ files st1 !! path = Some (getbuffer g)
       /\ (exists st2 : State,
             delete_book (length (library_df st)) st1 = Ok (tt, st2)
             /\ In first (library_df st2)
             /\ files st2 !! path = None)
       /\ (exists st2 : State,
             delete_book i st1 = Ok (tt, st2)
             /\ In second (library_df st2)
             /\ files st2 !! path = None))
  /\ (forall (today : string) (j : nat) (a : UpdateArgs) (other : Book),
        j <> i ->
        library_df st !! j = Some other ->
        str_row other = true ->
        u_isbn a = isbn ->
        u_cover_file a = Some g ->
        exists (st1 : State) (second : Book),
          update_with today j a st = Ok (tt, st1)
          /\ library_df st1 !! i = Some first
          /\ library_df st1 !! j = Some second
          /\ ISBN second = Str isbn
          /\ Cover_Image second = Str path
          /\ files st1 !! path = Some (getbuffer g)
          /\ (exists st2 : State,
                delete_book j st1 = Ok (tt, st2)
                /\ In first (library_df st2)
                /\ files st2 !! path = None)
          /\ (exists st2 : State,
                delete_book i st1 = Ok (tt, st2)
                /\ In second (library_df st2)
                /\ files st2 !! path = None)).
Proof.
  intros path Hplain Hi Hc.
  pose proof (lookup_lt_Some _ _ _ Hi) as Hlt.
  assert (truthy path = true) as Htruthy by reflexivity.
  split.
  - intros today title author genre year pages.
    set (second := added_row today title author isbn genre year pages
                     (Some g)).
    assert (forall l : list Book,
              (l ++ [second])%list !! length l = Some second) as Hlast.
    { intros l. rewrite lookup_app_r by lia. rewrite Nat.sub_diag.
      reflexivity. }
    eexists _, second.
    split; [apply (add_book_ok today title author isbn genre year pages
                     (Some g) st); exact Hplain|].
    cbn [library_df files uploaded_files].
    split; [apply lookup_app_l_Some; exact Hi|].
    split; [apply Hlast|].
    split; [reflexivity|]. split; [reflexivity|].
    split; [apply lookup_insert_eq|].
    split.
    + eexists. split.
      * apply (delete_book_ok (length (library_df st)) _ second path);
          [apply Hlast|reflexivity].
      * cbn [library_df files]. rewrite Htruthy. split.
        -- apply (delete_keeps_other_rows _ i); [|lia].
           apply lookup_app_l_Some. exact Hi.
        -- apply lookup_delete_eq.
    + eexists. split.
      * apply (delete_book_ok i _ first path);
          [apply lookup_app_l_Some; exact Hi|exact Hc].
      * cbn [library_df files]. rewrite Htruthy. split.
        -- apply (delete_keeps_other_rows _ (length (library_df st)));
             [apply Hlast|lia].
        -- apply lookup_delete_eq.
  - intros today j a other Hne Hj Hs Hisbn Hg.
    pose proof (lookup_lt_Some _ _ _ Hj) as Hjlt.
    assert (upload_plain (u_cover_file a) (u_isbn a) = true) as Hup.
    { rewrite Hg, Hisbn. exact Hplain. }
    assert (Cover_Image (updated_row today a other) = Str path) as Hc2.
    { unfold updated_row. cbn [Cover_Image]. rewrite Hg, Hisbn. reflexivity. }
    assert (updated_files a (files st) !! path = Some (getbuffer g)) as Hf.
    { unfold updated_files. rewrite Hg, Hisbn. apply lookup_insert_eq. }
    eexists _, (updated_row today a other).
    split; [apply (update_with_ok today j a st other Hj Hs Hup)|].
    cbn [library_df files].
    assert (<[j := updated_row today a other]> (library_df st) !! i
            = Some first) as Hi1.
    { rewrite list_lookup_insert_ne by exact Hne. exact Hi. }
    assert (<[j := updated_row today a other]> (library_df st) !! j
            = Some (updated_row today a other)) as Hj1.
    { apply list_lookup_insert_eq. exact Hjlt. }
    split; [exact Hi1|]. split; [exact Hj1|].
    split; [cbn [updated_row ISBN]; rewrite Hisbn; reflexivity|].
    split; [exact Hc2|]. split; [exact Hf|].
    split.
    + eexists. split.
      * apply (delete_book_ok j _ (updated_row today a other) path);
          [exact Hj1|exact Hc2].
      * cbn [library_df files]. rewrite Htruthy. split.
        -- apply (delete_keeps_other_rows _ i); [exact Hi1|].
           intros E. apply Hne. symmetry. exact E.
        -- apply lookup_delete_eq.
    + eexists. split.
      * apply (delete_book_ok i _ first path); [exact Hi1|exact Hc].
      * cbn [library_df files]. rewrite Htruthy. split.
        -- apply (delete_keeps_other_rows _ j); [exact Hj1|exact Hne].
        -- apply lookup_delete_eq.
Qed.

Lemma same_cover_path_is_shared_witness :
  plain_name ("" ++ "." ++ file_extension
                            {| name := "scan.jpg"; getbuffer := "second cover" |})
    = true
  /\ library_df notebook_state !! 0%nat = Some notebook
  /\ Cover_Image notebook = Str "book_covers/.jpg"
  /\ exists (st1 : State) (second : Book),
       add_book "2026-11-03" "Sketches" "Anon" "" "Other" 2021 40
         (Some {| name := "scan.jpg"; getbuffer := "second cover" |})
         notebook_state = Ok (tt, st1)
       /\ library_df st1 !! 1%nat = Some second
       /\ Cover_Image second = Str "book_covers/.jpg"
       /\ files st1 !! "book_covers/.jpg" = Some "second cover"
       /\ exists st2 : State,
            delete_book 1 st1 = Ok (tt, st2)
            /\ In notebook (library_df st2)
            /\ files st2 !! "book_covers/.jpg" = None.
Proof.
  split; [reflexivity|]. split; [reflexivity|]. split; [reflexivity|].
  destruct (same_cover_path_is_shared ""
              {| name := "scan.jpg"; getbuffer := "second cover" |}
              notebook_state 0 notebook eq_refl eq_refl eq_refl)
    as [Hadd _].
  destruct (Hadd "2026-11-03" "Sketches" "Anon" "Other" 2021 40)
    as (st1 & second & Hrun & _ & Hsecond & _ & Hcover & Hfile & Hdel & _).
  exists st1, second.
  split; [exact Hrun|]. split; [exact Hsecond|].
  split; [exact Hcover|]. split; [exact Hfile|]. exact Hdel.
Defined.

(** ** Text search *)

Lemma lower_ascii_special (c : ascii) :
  mem_ascii (lower_ascii c) RE_SPECIAL = mem_ascii c RE_SPECIAL
  /\ Ascii.eqb (lower_ascii c) "." = Ascii.eqb c ".".
Proof.
  destruct c as [[] [] [] [] [] [] [] []]; split; vm_compute; reflexivity.
Qed.

Lemma plain_text_lower (s : string) : plain_text (lower s) = plain_text s.
Proof.
  induction s as [|c s IH]; [reflexivity|].
  cbn [lower plain_text].
  destruct (lower_ascii_special c) as [-> ->]. rewrite IH. reflexivity.
Qed.

(** A plain text compiles, and its pattern matches at the start of a cell
    exactly when the cell starts with the text. *)
Lemma re_compile_plain (s : string) :
  plain_text s = true ->
  exists items : list re_item,
    re_compile s = Some items
    /\ forall t : string, re_match items t = starts_with s t.
Proof.
  induction s as [|c s IH]; intros Hp.
  - exists []. split; reflexivity.
  - cbn [plain_text] in Hp.
    apply andb_prop in Hp as [Hp Hs]. apply andb_prop in Hp as [Hspec Hdot].
    apply negb_true_iff in Hspec. apply negb_true_iff in Hdot.
    destruct (IH Hs) as (items & Hc & Hm).
    exists (re_char c :: items). split.
    + cbn [re_compile]. rewrite Hspec, Hc, Hdot. reflexivity.
    + intros [|d t]; [reflexivity|].
      cbn [re_match starts_with re_item_matches]. rewrite Hm. reflexivity.
Qed.

Lemma re_search_occurs_in (items : list re_item) (s : string) :
  (forall t : string, re_match items t = starts_with s t) ->
  forall t : string, re_search items t = occurs_in s t.
Proof.
  intros Hm t. induction t as [|d t IH].
  - cbn [re_search occurs_in]. rewrite Hm. reflexivity.
  - cbn [re_search occurs_in]. rewrite Hm, IH. reflexivity.
Qed.

(** [df[mask]] keeps the rows the mask is true on, when the mask has a
    value on every row. *)
Lemma keep_rows_total (test : Book -> option bool) (p : Book -> bool)
    (df : list Book) :
  Forall (fun b => test b = Some (p b)) df ->
  keep_rows test df = Ok (List.filter p df).
Proof.
  induction df as [|b df IH]; intros H; [reflexivity|].
  apply Forall_cons in H as [Hb H].
  cbn [keep_rows List.filter]. rewrite Hb, (IH H). reflexivity.
Qed.

Lemma keep_rows_inv (test : Book -> option bool) (df kept : list Book) :
  keep_rows test df = Ok kept ->
  kept = List.filter (fun b => match test b with
                               | Some keep => keep
                               | None => false
                               end) df.
Proof.
  revert kept. induction df as [|b df IH]; intros kept H.
  - injection H as <-. reflexivity.
  - cbn [keep_rows] in H. cbn [List.filter].
    destruct (test b) as [keep|]; [|discriminate].
    destruct (keep_rows test df) as [rest|why]; [|discriminate].
    injection H as <-. rewrite (IH rest eq_refl).
    destruct keep; reflexivity.
Qed.

Lemma text_filter_empty (df : list Book) : text_filter "" df = Ok df.
Proof. reflexivity. Qed.

(** C4. The search text is compiled as a regular expression.  The text
    [.] keeps a row although no dot is written in its title or author,
    and so does [d.n] on the title [Dune]. *)
Theorem search_text_is_read_as_pattern :
  text_filter "." [dune] = Ok [dune]
  /\ literal_match "." dune = false
  /\ text_filter "d.n" [dune] = Ok [dune]
  /\ literal_match "d.n" dune = false.
Proof. repeat split; vm_compute; reflexivity. Qed.

(** ** Sorting *)

(** An option that is none of the eight keys of [sort_mapping] sorts by
    [Date Added], descending. *)
Remark sort_option_default (option : string) :
  Forall (fun kv => fst kv <> option) sort_mapping ->
  dict_get sort_mapping option (by_Date_Added, false) = (by_Date_Added, false).
Proof.
  intros H. induction sort_mapping as [|[k v] d IH]; [reflexivity|].
  apply Forall_cons in H as [Hk H]. cbn [fst] in Hk.
  cbn [dict_get]. apply String.eqb_neq in Hk. rewrite Hk. apply IH. exact H.
Qed.

Lemma text_filter_sublist (query : string) (df kept : list Book) :
  text_filter query df = Ok kept -> Forall (fun b => b ∈ df) kept.
Proof.
  unfold text_filter. intros Ht. destruct (truthy query).
  - destruct (re_compile (lower query)) as [items|]; [|discriminate].
    apply keep_rows_inv in Ht. subst kept.
    apply Forall_forall. intros b Hb.
    apply list_elem_of_In in Hb. apply filter_In in Hb as [Hb _].
    apply list_elem_of_In. exact Hb.
  - injection Ht as <-. apply Forall_forall. auto.
Qed.

(** The order of the result is the order [sort_values] returns, applied
    to what the filters keep. *)
Remark filter_and_sort_books_sorts_last
    (sort_values : SortColumn -> bool -> list Book -> list Book)
    (filters : Filters) (df out : list Book) :
  filter_and_sort_books sort_values filters df = Ok out ->
  exists (column : SortColumn) (ascending : bool) (kept : list Book),
    dict_get sort_mapping (sort_option filters) (by_Date_Added, false)
      = (column, ascending)
    /\ Forall (fun b => b ∈ df) kept
    /\ out = sort_values column ascending kept.
Proof.
  unfold filter_and_sort_books. intros H.
  destruct (text_filter (search_query filters) df) as [kept0|why] eqn:Ht;
    [|discriminate].
  destruct (dict_get sort_mapping (sort_option filters) (by_Date_Added, false))
    as [column ascending].
  injection H as <-.
  eexists column, ascending, _. split; [reflexivity|]. split; [|reflexivity].
  pose proof (text_filter_sublist _ _ _ Ht) as H0.
  assert (forall (p : Book -> bool) (l : list Book),
            Forall (fun b => b ∈ df) l ->
            Forall (fun b => b ∈ df) (List.filter p l)) as Hf.
  { intros p l Hl. apply Forall_forall. intros b Hb.
    apply list_elem_of_In in Hb. apply filter_In in Hb as [Hb _].
    rewrite Forall_forall in Hl. apply Hl. apply list_elem_of_In. exact Hb. }
  apply Hf. apply Hf.
  destruct (status_filter filters); destruct (genre_filter filters);
    repeat apply Hf; exact H0.
Qed.

(** ** Statistics *)

Lemma Series_mean_times_length (xs : list Z) :
  xs <> [] ->
  (Series_mean xs * inject_Z (Z.of_nat (length xs))
   == inject_Z (Series_sum xs))%Q.
Proof.
  intros Hne. unfold Series_mean, Qeq, Qmult, inject_Z. cbn [Qnum Qden].
  destruct xs as [|x xs]; [contradiction|].
  rewrite Pos.mul_1_r.
  assert (Z.pos (Pos.of_nat (length (x :: xs)))
          = Z.of_nat (length (x :: xs))) as ->.
  { cbn [length]. lia. }
  lia.
Qed.

Lemma Series_sum_all_zero (df : list Book) :
  Forall (fun b => 0 <= Rating b) df ->
  Forall (fun b => ~ 0 < Rating b) df ->
  Series_sum (map Rating df) = 0.
Proof.
  induction df as [|b df IH]; intros Hlo Hhi; [reflexivity|].
  apply Forall_cons in Hlo as [Hb Hlo]. apply Forall_cons in Hhi as [Hb' Hhi].
  cbn [map Series_sum]. rewrite (IH Hlo Hhi). lia.
Qed.

(** C1, the claim as worded, at the specification's own example: the
    average shown for A (rating 4) and B (rating 0) is 2, where the mean
    of the rated records alone is 4. *)
Lemma average_of_A_and_B_is_two :
  exists m : Metrics,
    show_statistics [record_A; record_B] = Some m
    /\ quick_stats_average [record_A; record_B] = Some (Average_Rating m)
    /\ (Average_Rating m == 2)%Q
    /\ (rated_only_average [record_A; record_B] == 4)%Q
    /\ ~ (Average_Rating m == rated_only_average [record_A; record_B])%Q.
Proof.
  eexists. split; [reflexivity|]. split; [reflexivity|].
  split; [reflexivity|]. split; [reflexivity|].
  intros H. vm_compute in H. discriminate.
Qed.

(** C1. On an empty frame no average is shown, in the statistics page and
    in the sidebar alike.  On any other frame both show the same number,
    the sum of the ratings of all rows over the number of all rows, rows
    of rating 0 counted among them; it is 0 when no row has a rating
    above 0. *)
Theorem average_rating_is_mean_of_all_rows (df : list Book) :
  (df = [] ->
     show_statistics df = None /\ quick_stats_average df = None)
  /\ (df <> [] ->
      exists m : Metrics,
        show_statistics df = Some m
        /\ quick_stats_average df = Some (Average_Rating m)
        /\ Total_Books m = length df
        /\ (Average_Rating m * inject_Z (Z.of_nat (length df))
            == inject_Z (Series_sum (map Rating df)))%Q
        /\ (Forall (fun b => 0 <= Rating b) df ->
            Forall (fun b => ~ 0 < Rating b) df ->
            (Average_Rating m == 0)%Q)).
Proof.
  split.
  - intros ->. split; reflexivity.
  - intros Hne. destruct df as [|b df]; [contradiction|].
    eexists. split; [reflexivity|]. cbn [Average_Rating Total_Books].
    split; [reflexivity|]. split; [reflexivity|]. split.
    + rewrite <- (List.length_map Rating (b :: df)).
      apply Series_mean_times_length. discriminate.
    + intros Hlo Hhi. unfold Series_mean.
      rewrite (Series_sum_all_zero (b :: df) Hlo Hhi). reflexivity.
Qed.

Lemma average_rating_is_mean_of_all_rows_witness :
  [record_A; record_B] <> []
  /\ exists m : Metrics,
       show_statistics [record_A; record_B] = Some m
       /\ (Average_Rating m * inject_Z 2 == inject_Z 4)%Q.
Proof.
  assert ([record_A; record_B] <> []) as Hne by discriminate.
  split; [exact Hne|].
  destruct (average_rating_is_mean_of_all_rows [record_A; record_B])
    as [_ Hsome].
  destruct (Hsome Hne) as (m & Hm & _ & _ & Hmean & _).
  exists m. split; [exact Hm|]. exact Hmean.
Defined.

(** * Further properties of the operations *)

(** ** Updates *)

(** An update of a row of [str] cells, with a plain upload or none,
    changes that row and nothing around it: the frame keeps its length,
    every other row and the open edit form stay as they were, and the
    updated row keeps its [Date Added]; without an uploaded file it
    keeps its cover and the stored files are untouched. *)
Theorem update_changes_one_row (today : string) (index : nat) (a : UpdateArgs)
    (st : State) (b : Book) :
  library_df st !! index = Some b ->
  str_row b = true ->
  upload_plain (u_cover_file a) (u_isbn a) = true ->
  exists (st' : State) (b' : Book),
    update_with today index a st = Ok (tt, st')
    /\ length (library_df st') = length (library_df st)
    /\ library_df st' !! index = Some b'
    /\ Date_Added b' = Date_Added b
    /\ (forall j : nat, j <> index -> library_df st' !! j = library_df st !! j)
    /\ edit_index st' = edit_index st
    /\ (u_cover_file a = None ->
          Cover_Image b' = Cover_Image b /\ files st' = files st).
Proof.
  intros Hb Hs Hup. eexists _, (updated_row today a b).
  split; [apply (update_with_ok today index a st b Hb Hs Hup)|].
  cbn [library_df edit_index files].
  split; [apply length_insert|].
  split; [apply list_lookup_insert_eq; eapply lookup_lt_Some; exact Hb|].
  split; [reflexivity|].
  split; [intros j Hj; apply list_lookup_insert_ne; congruence|].
  split; [reflexivity|].
  intros Hnone. unfold updated_row, updated_files. cbn [Cover_Image].
  rewrite Hnone. split; reflexivity.
Qed.

Lemma update_changes_one_row_witness :
  library_df two_copies_state !! 1%nat = Some dune_again
  /\ str_row dune_again = true
  /\ upload_plain (u_cover_file mark_completed) (u_isbn mark_completed) = true
  /\ exists st' : State,
       update_with "2024-03-01" 1 mark_completed two_copies_state
         = Ok (tt, st')
       /\ library_df st' !! 0%nat = Some dune
       /\ files st' = files two_copies_state.
Proof.
  split; [reflexivity|]. split; [reflexivity|]. split; [reflexivity|].
  destruct (update_changes_one_row "2024-03-01" 1 mark_completed
              two_copies_state dune_again eq_refl eq_refl eq_refl)
    as (st' & b' & Hrun & _ & _ & _ & Hother & _ & Hcover).
  exists st'. split; [exact Hrun|]. split.
  - rewrite Hother by discriminate. reflexivity.
  - apply Hcover. reflexivity.
Defined.

Lemma str_row_updated (today : string) (a : UpdateArgs) (b : Book) :
  str_row b = true -> str_row (updated_row today a b) = true.
Proof.
  intros Hs.
  destruct (str_row_cells b Hs) as (t & au & i & r & d & c & _ & _ & _ & _
                                    & Hd & Hc).
  unfold str_row, updated_row.
  cbn [Title Author ISBN Review Date_Finished Cover_Image is_str andb].
  rewrite Hd, Hc.
  destruct (String.eqb (u_status a) "Completed" && negb (truthy d));
    destruct (u_cover_file a); reflexivity.
Qed.

Lemma updated_row_twice (today1 today2 : string) (a : UpdateArgs) (b : Book) :
  today1 <> "" ->
  updated_row today2 a (updated_row today1 a b) = updated_row today1 a b.
Proof.
  intros Hday. unfold updated_row.
  cbn [Date_Added Date_Finished Cover_Image].
  assert (match
            match Date_Finished b with
            | Str d =>
                if String.eqb (u_status a) "Completed" && negb (truthy d)
                then Str today1 else Str d
            | NaN => NaN
            | Num text => Num text
            end
          with
          | Str d =>
              if String.eqb (u_status a) "Completed" && negb (truthy d)
              then Str today2 else Str d
          | NaN => NaN
          | Num text => Num text
          end
          = match Date_Finished b with
            | Str d =>
                if String.eqb (u_status a) "Completed" && negb (truthy d)
                then Str today1 else Str d
            | NaN => NaN
            | Num text => Num text
            end) as ->.
  { destruct (Date_Finished b) as [d| |text]; [|reflexivity|reflexivity].
    destruct (String.eqb (u_status a) "Completed"); cbn [andb]; [|reflexivity].
    destruct (truthy d) eqn:T; cbn [negb].
    - rewrite T. reflexivity.
    - destruct (truthy today1) eqn:T1; [reflexivity|].
      apply truthy_empty_iff in T1. contradiction. }
  destruct (u_cover_file a); reflexivity.
Qed.

(** Repeating an update of a row of [str] cells, on the same day or on a
    later one, changes neither the frame nor the stored files nor the
    data file: the second run finds the date of completion the first one
    may have set. *)
Theorem update_twice_is_update_once (today1 today2 : string) (index : nat)
    (a : UpdateArgs) (st : State) (b : Book) :
  library_df st !! index = Some b ->
  str_row b = true ->
  upload_plain (u_cover_file a) (u_isbn a) = true ->
  today1 <> "" ->
  exists st1 st2 : State,
    update_with today1 index a st = Ok (tt, st1)
    /\ update_with today2 index a st1 = Ok (tt, st2)
    /\ library_df st2 = library_df st1
    /\ files st2 = files st1
    /\ data_file st2 = data_file st1
    /\ edit_index st2 = edit_index st1.
Proof.
  intros Hb Hs Hup Hday.
  pose proof (update_with_ok today1 index a st b Hb Hs Hup) as H1.
  cbn zeta in H1.
  eexists _, _. split; [exact H1|].
  match type of H1 with _ = Ok (tt, ?s) => set (st1 := s) end.
  assert (library_df st1 !! index = Some (updated_row today1 a b)) as Hb1.
  { subst st1. cbn [library_df]. apply list_lookup_insert_eq.
    eapply lookup_lt_Some. exact Hb. }
  pose proof (update_with_ok today2 index a st1 _ Hb1
                (str_row_updated today1 a b Hs) Hup) as H2.
  cbn zeta in H2.
  split; [exact H2|].
  rewrite (updated_row_twice today1 today2 a b Hday).
  subst st1. cbn [library_df files data_file edit_index].
  rewrite !list_insert_insert_eq.
  split; [reflexivity|]. split.
  - unfold updated_files.
    destruct (u_cover_file a); [apply insert_insert_eq|reflexivity].
  - split; reflexivity.
Qed.

Lemma update_twice_is_update_once_witness :
  library_df dune_state !! 0%nat = Some dune
  /\ str_row dune = true
  /\ upload_plain (u_cover_file new_isbn_new_cover)
       (u_isbn new_isbn_new_cover) = true
  /\ "2024-03-01" <> ""
  /\ exists st1 st2 : State,
       update_with "2024-03-01" 0 new_isbn_new_cover dune_state = Ok (tt, st1)
       /\ update_with "2024-03-09" 0 new_isbn_new_cover st1 = Ok (tt, st2)
       /\ library_df st2 = library_df st1
       /\ files st2 = files st1.
Proof.
  split; [reflexivity|]. split; [reflexivity|]. split; [reflexivity|].
  split; [discriminate|].
  assert ("2024-03-01" <> "") as Hday by discriminate.
  destruct (update_twice_is_update_once "2024-03-01" "2024-03-09" 0
              new_isbn_new_cover dune_state dune eq_refl eq_refl eq_refl Hday)
    as (st1 & st2 & H1 & H2 & Hdf & Hfiles & _).
  exists st1, st2. split; [exact H1|]. split; [exact H2|].
  split; [exact Hdf|exact Hfiles].
Defined.

(** ** Adding, showing and deleting *)

(** A record added with a cover file that gets a plain name in the cover
    folder can be shown at once: the file is stored under the path the
    new row names, with the bytes uploaded, and [display_cover] draws
    that file and not the placeholder. *)
Theorem added_cover_is_displayed (today title author isbn genre : string)
    (year pages : Z) (f : UploadedFile) (st : State) :
  plain_name (isbn ++ "." ++ file_extension f) = true ->
  exists (st1 st2 : State) (new : Book),
    add_book today title author isbn genre year pages (Some f) st
      = Ok (tt, st1)
    /\ library_df st1 !! length (library_df st) = Some new
    /\ Cover_Image new = Str (cover_filename_of isbn (file_extension f))
    /\ files st1 !! cover_filename_of isbn (file_extension f)
       = Some (getbuffer f)
    /\ display_cover (Cover_Image new) st1 = Ok (tt, st2)
    /\ shown st2 =
         (shown st1
            ++ [st_image (cover_filename_of isbn (file_extension f))])%list.
Proof.
  intros Hplain.
  pose proof (add_book_ok today title author isbn genre year pages (Some f) st
                Hplain) as H1.
  cbn zeta in H1.
  eexists _, _, (added_row today title author isbn genre year pages (Some f)).
  split; [exact H1|].
  cbn [library_df files uploaded_files added_row Cover_Image].
  split; [rewrite lookup_app_r by lia; rewrite Nat.sub_diag; reflexivity|].
  split; [reflexivity|].
  split; [apply lookup_insert_eq|].
  split.
  - apply display_cover_present; [apply truthy_cover_filename|].
    cbn [files]. rewrite lookup_insert_eq. eauto.
  - reflexivity.
Qed.

Lemma added_cover_is_displayed_witness :
  plain_name ("111" ++ "." ++ file_extension
                             {| name := "front.jpg"; getbuffer := "cover" |})
    = true
  /\ exists (st1 st2 : State),
       add_book "2026-11-03" "Dune" "Frank Herbert" "111" "Science Fiction"
         1965 100 (Some {| name := "front.jpg"; getbuffer := "cover" |})
         empty_state = Ok (tt, st1)
       /\ files st1 !! "book_covers/111.jpg" = Some "cover"
       /\ display_cover (Str "book_covers/111.jpg") st1 = Ok (tt, st2)
       /\ shown st2 = (shown st1 ++ [st_image "book_covers/111.jpg"])%list.
Proof.
  split; [reflexivity|].
  destruct (added_cover_is_displayed "2026-11-03" "Dune" "Frank Herbert" "111"
              "Science Fiction" 1965 100
              {| name := "front.jpg"; getbuffer := "cover" |} empty_state
              eq_refl)
    as (st1 & st2 & new & Hrun & _ & Hc & Hf & Hshow & Hshown).
  exists st1, st2. split; [exact Hrun|]. split; [exact Hf|].
  rewrite Hc in Hshow. split; [exact Hshow|exact Hshown].
Defined.

Lemma delete_last_appended (l : list Book) (x : Book) :
  delete (length l) (l ++ [x])%list = l.
Proof.
  induction l as [|y l IH]; [reflexivity|].
  cbn [length app]. cbn. f_equal. exact IH.
Qed.

(** Adding a record, with a plain upload or none, and deleting it again
    gives the frame back.  The stored files being listed under their
    paths in the cover folder, they come back too when no cover was
    uploaded; with a cover, the path the upload wrote to is empty
    afterwards, whatever it held before the record was added. *)
Theorem add_then_delete_restores_frame (today title author isbn genre : string)
    (year pages : Z) (cover_file : option UploadedFile) (st : State) :
  upload_plain cover_file isbn = true ->
  plain_store (files st) ->
  exists st1 st2 : State,
    add_book today title author isbn genre year pages cover_file st
      = Ok (tt, st1)
    /\ delete_book (length (library_df st)) st1 = Ok (tt, st2)
    /\ library_df st2 = library_df st
    /\ data_file st2 = Some (library_df st)
    /\ edit_index st2 = edit_index st
    /\ files st2 =
         match cover_file with
         | Some f =>
             delete (cover_filename_of isbn (file_extension f)) (files st)
         | None => files st
         end.
Proof.
  intros Hup _.
  pose proof (add_book_ok today title author isbn genre year pages cover_file
                st Hup) as H1.
  cbn zeta in H1.
  eexists _, _. split; [exact H1|].
  match type of H1 with _ = Ok (tt, ?s) => set (st1 := s) end.
  set (new := added_row today title author isbn genre year pages cover_file)
    in *.
  assert (library_df st1 !! length (library_df st) = Some new) as Hnew.
  { subst st1. cbn [library_df]. rewrite lookup_app_r by lia.
    rewrite Nat.sub_diag. reflexivity. }
  split.
  { apply (delete_book_ok _ st1 new
             match cover_file with
             | Some f => cover_filename_of isbn (file_extension f)
             | None => ""
             end Hnew).
    reflexivity. }
  subst st1. cbn [library_df data_file edit_index files].
  rewrite delete_last_appended.
  split; [reflexivity|]. split; [reflexivity|]. split; [reflexivity|].
  cbn [uploaded_files].
  destruct cover_file as [f|].
  - rewrite truthy_cover_filename. apply delete_insert_eq.
  - reflexivity.
Qed.

Lemma add_then_delete_restores_frame_witness :
  upload_plain (Some {| name := "front.jpg"; getbuffer := "cover" |}) "222"
    = true
  /\ plain_store (files dune_state)
  /\ exists st1 st2 : State,
       add_book "2026-11-03" "Emma" "Jane Austen" "222" "Fiction" 1815 400
         (Some {| name := "front.jpg"; getbuffer := "cover" |}) dune_state
         = Ok (tt, st1)
       /\ delete_book 1 st1 = Ok (tt, st2)
       /\ library_df st2 = [dune]
       /\ files st2 = delete "book_covers/222.jpg" (files dune_state).
Proof.
  assert (plain_store (files dune_state)) as Hstore.
  { intros path [x Hx]. unfold dune_state, files in Hx.
    apply lookup_singleton_Some in Hx as [<- _]. reflexivity. }
  split; [reflexivity|]. split; [exact Hstore|].
  destruct (add_then_delete_restores_frame "2026-11-03" "Emma" "Jane Austen"
              "222" "Fiction" 1815 400
              (Some {| name := "front.jpg"; getbuffer := "cover" |})
              dune_state eq_refl Hstore)
    as (st1 & st2 & H1 & H2 & Hdf & _ & _ & Hfiles).
  exists st1, st2. split; [exact H1|]. split; [exact H2|].
  split; [exact Hdf|exact Hfiles].
Defined.

(** [delete_book] leaves [edit_index] as it is.  When the edit form was
    open on the last row and a row with a [str] cover cell is deleted,
    the form that [main] draws after the cards looks that position up in
    the shortened frame, and the run ends in [IndexError]. *)
Theorem delete_leaves_edit_form_on_missing_row (today : string)
    (v : EditValues) (click : Click) (index : nat) (st : State) (b : Book)
    (p : string) :
  library_df st !! index = Some b ->
  Cover_Image b = Str p ->
  edit_index st = Some (length (library_df st) - 1)%nat ->
  (delete_book index ;; show_edit_book_form today v click) st
    = Stopped IndexError.
Proof.
  intros Hb Hp He. pose proof (lookup_lt_Some _ _ _ Hb) as Hlt.
  unfold mbind at 1. unfold M_bind at 1.
  rewrite (delete_book_ok index st b p Hb Hp). cbn zeta.
  unfold show_edit_book_form, get_edit_index, iloc, mbind, M_bind.
  cbn [edit_index library_df]. rewrite He. cbn [library_df].
  rewrite lookup_ge_None_2; [reflexivity|].
  rewrite length_delete by eauto. lia.
Qed.

Lemma delete_leaves_edit_form_on_missing_row_witness :
  library_df dune_state !! 0%nat = Some dune
  /\ Cover_Image dune = Str "book_covers/111.jpg"
  /\ edit_index dune_state = Some (length (library_df dune_state) - 1)%nat
  /\ (delete_book 0 ;; show_edit_book_form "2024-03-01" fewer_pages NoClick)
       dune_state = Stopped IndexError.
Proof.
  split; [reflexivity|]. split; [reflexivity|]. split; [reflexivity|].
  apply (delete_leaves_edit_form_on_missing_row "2024-03-01" fewer_pages
           NoClick 0 dune_state dune "book_covers/111.jpg"); reflexivity.
Defined.

(** ** File names *)

Lemma split_last_piece (s : string) :
  (mem_ascii "." s = false -> split "." s = [s])
  /\ (mem_ascii "." s = true ->
      exists (w : string) (ws : list string) (stem : string),
        split "." s = w :: ws /\ ws <> []
        /\ s = stem ++ "." ++ last_item (w :: ws))
  /\ mem_ascii "." (last_item (split "." s)) = false.
Proof.
  induction s as [|c s (IHno & IHdot & IHlast)].
  - split; [reflexivity|]. split; [discriminate|reflexivity].
  - cbn [split mem_ascii].
    rewrite (Ascii.eqb_sym "." c).
    destruct (Ascii.eqb c ".") eqn:E; cbn [orb].
    + apply Ascii.eqb_eq in E. subst c.
      split; [discriminate|]. split.
      * intros _. destruct (mem_ascii "." s) eqn:D.
        -- destruct (IHdot eq_refl) as (w & ws & stem & Hs & Hne & Heq).
           exists "", (w :: ws), (String "." stem).
           rewrite Hs. split; [reflexivity|]. split; [discriminate|].
           unfold last_item in *. exact (f_equal (String ".") Heq).
        -- exists "", [s], "". rewrite (IHno eq_refl).
           split; [reflexivity|]. split; [discriminate|]. reflexivity.
      * unfold last_item in *.
        destruct (split "." s) as [|w ws] eqn:Hs.
        -- destruct (mem_ascii "." s) eqn:D.
           ++ destruct (IHdot eq_refl) as (? & ? & ? & Hbad & _); discriminate.
           ++ specialize (IHno eq_refl). discriminate.
        -- exact IHlast.
    + split; [|split].
      * intros D. rewrite (IHno D). reflexivity.
      * intros D. destruct (IHdot D) as (w & ws & stem & Hs & Hne & Heq).
        exists (String c w), ws, (String c stem).
        rewrite Hs. split; [reflexivity|]. split; [exact Hne|].
        unfold last_item in *. destruct ws as [|w' ws]; [contradiction|].
        exact (f_equal (String c) Heq).
      * destruct (mem_ascii "." s) eqn:D.
        -- destruct (IHdot eq_refl) as (w & ws & stem & Hs & Hne & Heq).
           rewrite Hs in *. unfold last_item in *.
           destruct ws; [contradiction|exact IHlast].
        -- rewrite (IHno eq_refl). unfold last_item. cbn [List.last].
           cbn [mem_ascii]. rewrite (Ascii.eqb_sym "." c), E. exact D.
Qed.

(** The extension taken from an uploaded file's name has no dot in it.
    A name with a dot is a stem, a dot and the extension; a name with no
    dot is its own extension, so that the cover of ISBN [i] uploaded as
    [cover] is stored as [book_covers/i.cover]. *)
Theorem file_extension_is_last_piece (f : UploadedFile) :
  mem_ascii "." (file_extension f) = false
  /\ (mem_ascii "." (name f) = true ->
      exists stem : string, name f = stem ++ "." ++ file_extension f)
  /\ (mem_ascii "." (name f) = false ->
      file_extension f = name f
      /\ forall isbn : string,
           cover_filename_of isbn (file_extension f)
           = "book_covers/" ++ isbn ++ "." ++ name f).
Proof.
  unfold file_extension.
  destruct (split_last_piece (name f)) as (Hno & Hdot & Hlast).
  split; [exact Hlast|]. split.
  - intros D. destruct (Hdot D) as (w & ws & stem & Hs & _ & Heq).
    exists stem. rewrite Hs. exact Heq.
  - intros D. rewrite (Hno D). split; reflexivity.
Qed.

Lemma file_extension_is_last_piece_witness :
  mem_ascii "." (name {| name := "front.cover.JPG"; getbuffer := "" |}) = true
  /\ exists stem : string,
       "front.cover.JPG" = stem ++ "." ++
         file_extension {| name := "front.cover.JPG"; getbuffer := "" |}.
Proof.
  split; [reflexivity|].
  destruct (file_extension_is_last_piece
              {| name := "front.cover.JPG"; getbuffer := "" |})
    as (_ & Hdot & _).
  apply Hdot. reflexivity.
Defined.

(** ** Statistics *)

Lemma wrap64_id (z : Z) : int64_range z -> wrap64 z = z.
Proof.
  unfold int64_range, wrap64. intros H.
  rewrite Z.mod_small by lia. lia.
Qed.

Lemma Series_sum_app (xs ys : list Z) :
  Series_sum (xs ++ ys) = Series_sum xs + Series_sum ys.
Proof.
  induction xs as [|x xs IH]; [reflexivity|].
  cbn [app Series_sum]. rewrite IH. lia.
Qed.

Lemma where_Status_app (status : string) (xs ys : list Book) :
  where_Status status (xs ++ ys)
  = (where_Status status xs ++ where_Status status ys)%list.
Proof. unfold where_Status. apply List.filter_app. Qed.

Lemma where_Status_length (status : string) (df : list Book) :
  (length (where_Status status df) <= length df)%nat.
Proof. unfold where_Status. apply List.filter_length_le. Qed.

Lemma pages_read_bounds (df : list Book) :
  Forall (fun b => 0 <= Current_Page b <= Pages b) df ->
  0 <= Series_sum (map Pages (where_Status "Completed" df))
  /\ 0 <= Series_sum (map Current_Page (where_Status "Reading" df))
  /\ Series_sum (map Pages (where_Status "Completed" df))
     + Series_sum (map Current_Page (where_Status "Reading" df))
     <= Series_sum (map Pages df).
Proof.
  induction df as [|b df IH]; intros H; [cbn; lia|].
  apply Forall_cons in H as [Hb H]. specialize (IH H).
  unfold where_Status in *. cbn [List.filter map Series_sum].
  destruct (String.eqb (Status b) "Completed") eqn:Ec;
    destruct (String.eqb (Status b) "Reading") eqn:Er;
    cbn [map Series_sum]; try lia.
  apply String.eqb_eq in Ec. apply String.eqb_eq in Er.
  rewrite Ec in Er. discriminate.
Qed.

Lemma ratings_sum_bounds (df : list Book) :
  Forall (fun b => 0 <= Rating b <= 5) df ->
  0 <= Series_sum (map Rating df) <= 5 * Z.of_nat (length df).
Proof.
  induction df as [|b df IH]; intros H; [cbn; lia|].
  apply Forall_cons in H as [Hb H]. specialize (IH H).
  cbn [map Series_sum length]. lia.
Qed.

Lemma show_statistics_eq (df : list Book) :
  df <> [] ->
  show_statistics df =
    Some {| Total_Books := length df;
            Books_Read := length (where_Status "Completed" df);
            Total_Pages := wrap64 (Series_sum (map Pages df));
            Average_Rating := Series_mean (map Rating df);
            Pages_Read :=
              wrap64
                (wrap64 (Series_sum (map Pages (where_Status "Completed" df)))
                 + wrap64 (Series_sum (map Current_Page
                                         (where_Status "Reading" df)))) |}.
Proof. intros H. destruct df; [contradiction|reflexivity]. Qed.

(** The metrics of the statistics page fit together: the books read are
    not more than the books; when every row has its current page between
    0 and its page count and the page counts add up to a number that a
    64-bit integer holds, the pages read are between 0 and the total
    pages. *)
Theorem statistics_counts_are_bounded (df : list Book) (m : Metrics) :
  show_statistics df = Some m ->
  Total_Books m = length df
  /\ (Books_Read m <= Total_Books m)%nat
  /\ (Forall (fun b => 0 <= Current_Page b <= Pages b) df ->
      Series_sum (map Pages df) < 2 ^ 63 ->
      Total_Pages m = Series_sum (map Pages df)
      /\ 0 <= Pages_Read m <= Total_Pages m).
Proof.
  intros H.
  assert (df <> []) as Hne by (destruct df; discriminate).
  rewrite (show_statistics_eq df Hne) in H. injection H as <-.
  cbn [Total_Books Books_Read Total_Pages Pages_Read].
  split; [reflexivity|].
  split; [exact (where_Status_length "Completed" df)|].
  intros Hrows Hfit.
  destruct (pages_read_bounds df Hrows) as (Hc & Hr & Hsum).
  rewrite (wrap64_id (Series_sum (map Pages (where_Status "Completed" df))))
    by (unfold int64_range; lia).
  rewrite (wrap64_id (Series_sum (map Current_Page
                                    (where_Status "Reading" df))))
    by (unfold int64_range; lia).
  rewrite (wrap64_id (Series_sum (map Pages df)))
    by (unfold int64_range; lia).
  rewrite wrap64_id by (unfold int64_range; lia).
  split; [reflexivity|lia].
Qed.

Lemma statistics_counts_are_bounded_witness :
  exists m : Metrics,
    show_statistics [record_A; dune; record_B] = Some m
    /\ (Books_Read m <= Total_Books m)%nat
    /\ Total_Pages m = 400
    /\ 0 <= Pages_Read m <= Total_Pages m.
Proof.
  eexists. split; [reflexivity|].
  destruct (statistics_counts_are_bounded [record_A; dune; record_B] _ eq_refl)
    as (_ & Hread & Hpages).
  split; [exact Hread|].
  apply Hpages.
  - repeat constructor; cbn; lia.
  - cbn. lia.
Defined.

(** With every rating between 0 and 5, the average shown is between 0
    and 5, on the statistics page and in the sidebar. *)
Theorem average_rating_is_bounded (df : list Book) (m : Metrics) :
  show_statistics df = Some m ->
  Forall (fun b => 0 <= Rating b <= 5) df ->
  (0 <= Average_Rating m <= 5)%Q
  /\ quick_stats_average df = Some (Average_Rating m).
Proof.
  intros H Hr. destruct df as [|b df]; [discriminate|].
  injection H as <-. cbn [Average_Rating].
  split; [|reflexivity].
  pose proof (ratings_sum_bounds (b :: df) Hr) as Hs.
  unfold Series_mean, Qle. cbn [Qnum Qden].
  cbn [length map Series_sum] in Hs |- *. rewrite List.length_map. lia.
Qed.

Lemma average_rating_is_bounded_witness :
  exists m : Metrics,
    show_statistics [record_A; record_B] = Some m
    /\ (0 <= Average_Rating m <= 5)%Q.
Proof.
  eexists. split; [reflexivity|].
  apply (average_rating_is_bounded [record_A; record_B] _ eq_refl).
  repeat constructor; cbn; lia.
Defined.

(** A record just added, with a plain upload or none, counts as a book
    and with its pages, and as nothing read: the books read and the
    pages read stay as they were, and the sum of the ratings stays while
    the number of rows it is divided by grows by one.  The page counts
    are taken to add up, before and after, to numbers that a 64-bit
    integer holds. *)
Theorem statistics_after_add_book (today title author isbn genre : string)
    (year pages : Z) (cover_file : option UploadedFile) (st : State) :
  upload_plain cover_file isbn = true ->
  int64_range (Series_sum (map Pages (library_df st))) ->
  int64_range (Series_sum (map Pages (library_df st)) + pages) ->
  exists (st' : State) (m' : Metrics),
    add_book today title author isbn genre year pages cover_file st
      = Ok (tt, st')
    /\ show_statistics (library_df st') = Some m'
    /\ Total_Books m' = S (length (library_df st))
    /\ Total_Pages m' = Series_sum (map Pages (library_df st)) + pages
    /\ (Average_Rating m' * inject_Z (Z.of_nat (S (length (library_df st))))
        == inject_Z (Series_sum (map Rating (library_df st))))%Q
    /\ forall m : Metrics,
         show_statistics (library_df st) = Some m ->
         Total_Books m' = S (Total_Books m)
         /\ Total_Pages m' = Total_Pages m + pages
         /\ Books_Read m' = Books_Read m
         /\ Pages_Read m' = Pages_Read m
         /\ (Average_Rating m' * inject_Z (Z.of_nat (S (Total_Books m)))
             == Average_Rating m * inject_Z (Z.of_nat (Total_Books m)))%Q.
Proof.
  intros Hup Hfit Hfit'.
  pose proof (add_book_ok today title author isbn genre year pages cover_file
                st Hup) as H1.
  cbn zeta in H1.
  set (new := added_row today title author isbn genre year pages cover_file)
    in *.
  remember (library_df st) as df eqn:Edf0.
  assert ((df ++ [new])%list <> []) as Hne' by (destruct df; discriminate).
  assert (where_Status "Completed" [new] = []) as Hc by reflexivity.
  assert (where_Status "Reading" [new] = []) as Hr by reflexivity.
  assert (length (df ++ [new]) = S (length df)) as Hlen.
  { rewrite length_app. cbn [length]. lia. }
  assert (Series_sum (map Pages (df ++ [new])) = Series_sum (map Pages df)
                                                 + pages) as Hpages.
  { rewrite map_app, Series_sum_app. cbn [map Series_sum Pages new added_row].
    lia. }
  assert ((Series_mean (map Rating (df ++ [new]))
           * inject_Z (Z.of_nat (S (length df)))
           == inject_Z (Series_sum (map Rating df)))%Q) as Hmean.
  { rewrite <- Hlen. rewrite <- (List.length_map Rating (df ++ [new])).
    rewrite Series_mean_times_length.
    - rewrite map_app, Series_sum_app.
      cbn [map Series_sum Rating new added_row].
      replace (Series_sum (map Rating df) + (0 + 0))
        with (Series_sum (map Rating df)) by lia.
      reflexivity.
    - destruct df; discriminate. }
  eexists _, _. split; [exact H1|]. cbn [library_df].
  split; [apply (show_statistics_eq _ Hne')|].
  cbn [Total_Books Total_Pages Books_Read Pages_Read Average_Rating].
  split; [exact Hlen|].
  split; [rewrite Hpages; apply wrap64_id; exact Hfit'|].
  split; [exact Hmean|].
  intros m Hm.
  assert (df <> []) as Hne by (destruct df; discriminate).
  rewrite (show_statistics_eq df Hne) in Hm. injection Hm as <-.
  cbn [Total_Books Total_Pages Books_Read Pages_Read Average_Rating].
  split; [exact Hlen|].
  split.
  { rewrite Hpages, (wrap64_id _ Hfit), (wrap64_id _ Hfit'). reflexivity. }
  rewrite !where_Status_app, Hc, Hr, !app_nil_r.
  split; [reflexivity|]. split; [reflexivity|].
  rewrite Hmean.
  assert (map Rating df <> []) as Hner.
  { intros E. apply Hne. destruct df; [reflexivity|discriminate E]. }
  pose proof (Series_mean_times_length (map Rating df) Hner) as Hx.
  rewrite List.length_map in Hx. symmetry. exact Hx.
Qed.

Lemma statistics_after_add_book_witness :
  upload_plain None "222" = true
  /\ int64_range (Series_sum (map Pages (library_df dune_state)))
  /\ int64_range (Series_sum (map Pages (library_df dune_state)) + 400)
  /\ exists (st' : State) (m' : Metrics),
       add_book "2026-11-03" "Emma" "Jane Austen" "222" "Fiction" 1815 400
         None dune_state = Ok (tt, st')
       /\ show_statistics (library_df st') = Some m'
       /\ Total_Books m' = 2%nat
       /\ Total_Pages m' = 500.
Proof.
  assert (int64_range (Series_sum (map Pages (library_df dune_state))))
    as Hfit by (cbn; unfold int64_range; lia).
  assert (int64_range (Series_sum (map Pages (library_df dune_state)) + 400))
    as Hfit' by (cbn; unfold int64_range; lia).
  split; [reflexivity|]. split; [exact Hfit|]. split; [exact Hfit'|].
  destruct (statistics_after_add_book "2026-11-03" "Emma" "Jane Austen" "222"
              "Fiction" 1815 400 None dune_state eq_refl Hfit Hfit')
    as (st' & m' & Hrun & Hm' & Hbooks & Hpages & _).
  exists st', m'. split; [exact Hrun|]. split; [exact Hm'|].
  split; [exact Hbooks|exact Hpages].
Defined.

(** ** The query *)

Lemma filter_twice {A} (p q : A -> bool) (l : list A) :
  List.filter p (List.filter q l) = List.filter (fun x => q x && p x) l.
Proof.
  induction l as [|x l IH]; [reflexivity|].
  cbn [List.filter]. destruct (q x); cbn [andb List.filter]; rewrite IH;
    reflexivity.
Qed.

Lemma filter_length_mono {A} (p q : A -> bool) (l : list A) :
  (forall x : A, In x l -> p x = true -> q x = true) ->
  (length (List.filter p l) <= length (List.filter q l))%nat.
Proof.
  induction l as [|x l IH]; intros H; [reflexivity|].
  assert (forall y : A, In y l -> p y = true -> q y = true) as H'.
  { intros y Hy. apply H. right. exact Hy. }
  specialize (IH H'). cbn [List.filter].
  destruct (p x) eqn:P.
  - rewrite (H x (or_introl eq_refl) P). cbn [length]. lia.
  - destruct (q x); cbn [length]; lia.
Qed.

(** The five filters in a row keep the rows that pass the text test and
    the four selections, in the order of the frame; the sort gets those. *)
Lemma filter_and_sort_books_filters
    (sort_values : SortColumn -> bool -> list Book -> list Book)
    (filters : Filters) (df : list Book) :
  filter_and_sort_books sort_values filters df =
    match text_filter (search_query filters) df with
    | Stopped why => Stopped why
    | Ok kept =>
        Ok (sort_values
              (fst (dict_get sort_mapping (sort_option filters)
                      (by_Date_Added, false)))
              (snd (dict_get sort_mapping (sort_option filters)
                      (by_Date_Added, false)))
              (List.filter (passes_selection filters) kept))
    end.
Proof.
  unfold filter_and_sort_books.
  destruct (text_filter (search_query filters) df) as [kept|why];
    [|reflexivity].
  destruct (dict_get sort_mapping (sort_option filters) (by_Date_Added, false))
    as [column ascending]. cbn [fst snd]. do 2 f_equal.
  rewrite !filter_twice.
  unfold passes_selection.
  destruct (genre_filter filters) as [|g gs];
    destruct (status_filter filters) as [|s ss];
    rewrite ?filter_twice; apply filter_ext; intros b;
    cbn [andb]; rewrite ?andb_true_r, ?andb_assoc; reflexivity.
Qed.

Lemma ascii_row_contains (items : list re_item) (b : Book) :
  ascii_row b = true ->
  exists t au : string,
    Title b = Str t /\ Author b = Str au
    /\ row_contains items b
       = Some (re_search items (lower t) || re_search items (lower au)).
Proof.
  unfold ascii_row, row_contains, cell_contains. intros H.
  destruct (Title b) as [t| |]; try discriminate.
  destruct (Author b) as [au| |]; try discriminate.
  exists t, au. repeat split.
Qed.

Lemma filter_id {A} (l : list A) : List.filter (fun _ => true) l = l.
Proof.
  induction l as [|x l IH]; [reflexivity|].
  cbn [List.filter]. rewrite IH. reflexivity.
Qed.

(** On rows whose title and author are [str] objects, the text filter
    of a search text that is empty or compiles keeps the rows that pass
    the text test. *)
Lemma text_filter_compiled (query : string) (items : list re_item)
    (df : list Book) :
  Forall (fun b => ascii_row b = true) df ->
  query = "" \/ re_compile (lower query) = Some items ->
  text_filter query df = Ok (List.filter (passes_text query items) df).
Proof.
  intros Hrows H. unfold text_filter, passes_text.
  destruct (truthy query) eqn:T.
  - destruct H as [-> | ->]; [discriminate|].
    apply keep_rows_total.
    apply Forall_forall. intros b Hb.
    rewrite Forall_forall in Hrows.
    destruct (ascii_row_contains items b (Hrows b Hb))
      as (t & au & _ & _ & ->).
    reflexivity.
  - rewrite filter_id. reflexivity.
Qed.

(** For rows whose title and author are ASCII text, an ASCII search
    text that is empty or lies in the embedded part of [re] (ordinary
    characters and the dot), and whatever order [sort_values] gives its
    rows: the result of a query holds the rows of the frame that pass
    the text test, the genre and status selections when they are not
    empty, the year range with both ends, and the rating floor: those
    rows, as often as the frame has them, and no other. *)
Theorem query_keeps_the_passing_rows
    (sort_values : SortColumn -> bool -> list Book -> list Book)
    (filters : Filters) (items : list re_item) (df : list Book) :
  (forall (column : SortColumn) (ascending : bool) (l : list Book),
     Permutation (sort_values column ascending l) l) ->
  Forall (fun b => ascii_row b = true) df ->
  is_ascii (search_query filters) = true ->
  search_query filters = ""
    \/ re_compile (lower (search_query filters)) = Some items ->
  exists out : list Book,
    filter_and_sort_books sort_values filters df = Ok out
    /\ Permutation out
         (List.filter
            (fun b => passes_text (search_query filters) items b
                      && passes_selection filters b) df)
    /\ (forall b : Book,
          In b out <->
          In b df
          /\ passes_text (search_query filters) items b = true
          /\ passes_selection filters b = true)
    /\ (length out <= length df)%nat.
Proof.
  intros Hperm Hrows _ Hq.
  rewrite filter_and_sort_books_filters.
  rewrite (text_filter_compiled _ items df Hrows Hq).
  rewrite filter_twice.
  eexists. split; [reflexivity|].
  split; [apply Hperm|]. split.
  - intros b. rewrite (Permutation_in' (eq_refl b) (Hperm _ _ _)).
    rewrite filter_In, andb_true_iff. tauto.
  - rewrite (Permutation_length (Hperm _ _ _)). apply List.filter_length_le.
Qed.

Lemma query_keeps_the_passing_rows_witness :
  (forall (column : SortColumn) (ascending : bool) (l : list Book),
     Permutation ((fun _ _ l' => l') column ascending l) l)
  /\ Forall (fun b => ascii_row b = true) [record_B; dune; record_A]
  /\ is_ascii (search_query search_herb) = true
  /\ (search_query search_herb = ""
      \/ re_compile (lower (search_query search_herb))
         = Some [re_char "h"; re_char "e"; re_char "r"; re_char "b"])
  /\ exists out : list Book,
       filter_and_sort_books (fun _ _ l => l) search_herb
         [record_B; dune; record_A] = Ok out
       /\ (In dune out /\ ~ In record_A out /\ ~ In record_B out).
Proof.
  assert (forall (column : SortColumn) (ascending : bool) (l : list Book),
            Permutation ((fun (_ : SortColumn) (_ : bool) (l' : list Book)
                          => l') column ascending l) l) as Hperm.
  { intros column ascending l. apply Permutation_refl. }
  assert (Forall (fun b => ascii_row b = true) [record_B; dune; record_A])
    as Hrows by (repeat constructor).
  assert (search_query search_herb = ""
          \/ re_compile (lower (search_query search_herb))
             = Some [re_char "h"; re_char "e"; re_char "r"; re_char "b"])
    as Hq.
  { right. reflexivity. }
  split; [exact Hperm|]. split; [exact Hrows|]. split; [reflexivity|].
  split; [exact Hq|].
  destruct (query_keeps_the_passing_rows (fun _ _ l => l) search_herb
              [re_char "h"; re_char "e"; re_char "r"; re_char "b"]
              [record_B; dune; record_A] Hperm Hrows eq_refl Hq)
    as (out & Hrun & _ & Hin & _).
  exists out. split; [exact Hrun|]. split.
  - apply Hin. split; [right; left; reflexivity|]. split; reflexivity.
  - split.
    + intros HA. apply Hin in HA as (_ & Htext & _). discriminate.
    + intros HB. apply Hin in HB as (_ & Htext & _). discriminate.
Defined.

Lemma isin_subset (cell : string) (narrow wide : list string) :
  (forall x : string, In x narrow -> In x wide) ->
  isin cell narrow = true -> isin cell wide = true.
Proof.
  unfold isin. intros Hsub H.
  apply existsb_exists in H as (x & Hx & He).
  apply existsb_exists. exists x. split; [apply Hsub; exact Hx|exact He].
Qed.

Lemma narrower_selection (narrow wide : Filters) (b : Book) :
  narrower narrow wide ->
  passes_selection narrow b = true -> passes_selection wide b = true.
Proof.
  intros (_ & Hg & Hs & Hlo & Hhi & Hr). unfold passes_selection.
  rewrite !andb_true_iff. intros [[[Pg Ps] [Py1 Py2]] Pr].
  repeat split.
  - destruct Hg as [-> | [Hne Hsub]]; [reflexivity|].
    destruct (genre_filter wide) as [|g gs] eqn:Ew; [reflexivity|].
    destruct (genre_filter narrow) as [|g' gs'] eqn:En; [contradiction|].
    exact (isin_subset _ _ _ Hsub Pg).
  - destruct Hs as [-> | [Hne Hsub]]; [reflexivity|].
    destruct (status_filter wide) as [|s ss] eqn:Ew; [reflexivity|].
    destruct (status_filter narrow) as [|s' ss'] eqn:En; [contradiction|].
    exact (isin_subset _ _ _ Hsub Ps).
  - apply Z.leb_le. apply Z.leb_le in Py1. lia.
  - apply Z.leb_le. apply Z.leb_le in Py2. lia.
  - apply Z.leb_le. apply Z.leb_le in Pr. lia.
Qed.

Lemma text_filter_test (query : string) (df kept : list Book) :
  text_filter query df = Ok kept ->
  kept =
    List.filter
      (fun b => if truthy query
                then match re_compile (lower query) with
                     | Some items =>
                         match row_contains items b with
                         | Some found => found
                         | None => false
                         end
                     | None => false
                     end
                else true) df.
Proof.
  unfold text_filter. destruct (truthy query).
  - destruct (re_compile (lower query)); [|discriminate].
    intros H. apply keep_rows_inv in H. exact H.
  - intros H. injection H as <-. rewrite filter_id. reflexivity.
Qed.

(** Asking for more never gives more.  When one filter specification is
    narrower than another, every row of its result is in the result of
    the other, and its result is not longer. *)
Theorem narrower_query_gives_no_more
    (sort_values : SortColumn -> bool -> list Book -> list Book)
    (narrow wide : Filters) (df out_narrow out_wide : list Book) :
  (forall (column : SortColumn) (ascending : bool) (l : list Book),
     Permutation (sort_values column ascending l) l) ->
  narrower narrow wide ->
  filter_and_sort_books sort_values narrow df = Ok out_narrow ->
  filter_and_sort_books sort_values wide df = Ok out_wide ->
  (forall b : Book, In b out_narrow -> In b out_wide)
  /\ (length out_narrow <= length out_wide)%nat.
Proof.
  intros Hperm Hn Hrn Hrw.
  rewrite filter_and_sort_books_filters in Hrn, Hrw.
  destruct (text_filter (search_query narrow) df) as [kn|] eqn:Tn;
    [|discriminate].
  destruct (text_filter (search_query wide) df) as [kw|] eqn:Tw;
    [|discriminate].
  injection Hrn as <-. injection Hrw as <-.
  apply text_filter_test in Tn. apply text_filter_test in Tw. subst kn kw.
  match goal with
  | |- context [List.filter _ (List.filter ?p df)] => set (pn := p)
  end.
  match goal with
  | |- context [List.filter (passes_selection wide) (List.filter ?p df)] =>
      set (pw := p)
  end.
  assert (forall b : Book, pn b = true -> pw b = true) as Himp.
  { intros b. subst pn pw. cbn beta.
    destruct Hn as ([Hw|He] & _).
    - rewrite Hw. cbn [truthy]. reflexivity.
    - rewrite He. auto. }
  rewrite !filter_twice.
  assert (forall b : Book,
            pn b && passes_selection narrow b = true ->
            pw b && passes_selection wide b = true) as Hall.
  { intros b. rewrite !andb_true_iff. intros [Hp Hs].
    split; [apply Himp; exact Hp|].
    apply (narrower_selection narrow wide b Hn Hs). }
  split.
  - intros b Hb.
    rewrite (Permutation_in' (eq_refl b) (Hperm _ _ _)) in Hb.
    rewrite (Permutation_in' (eq_refl b) (Hperm _ _ _)).
    apply filter_In in Hb as [Hb Hp]. apply filter_In.
    split; [exact Hb|]. apply Hall. exact Hp.
  - rewrite !(Permutation_length (Hperm _ _ _)).
    apply filter_length_mono. intros b _. apply Hall.
Qed.

Lemma narrower_query_gives_no_more_witness :
  narrower rated_only no_filter
  /\ exists out_narrow out_wide : list Book,
       filter_and_sort_books (fun _ _ l => l) rated_only
         [record_B; record_A] = Ok out_narrow
       /\ filter_and_sort_books (fun _ _ l => l) no_filter
            [record_B; record_A] = Ok out_wide
       /\ (length out_narrow <= length out_wide)%nat.
Proof.
  assert (narrower rated_only no_filter) as Hn.
  { unfold narrower. cbn. repeat split; try (left; reflexivity); lia. }
  split; [exact Hn|].
  exists [record_A], [record_B; record_A].
  split; [reflexivity|]. split; [reflexivity|].
  apply (narrower_query_gives_no_more (fun _ _ l => l) rated_only no_filter
           [record_B; record_A] [record_A] [record_B; record_A]).
  - intros column ascending l. apply Permutation_refl.
  - exact Hn.
  - reflexivity.
  - reflexivity.
Defined.

(** For an ASCII search text with no character special to regular
    expressions, on rows whose title and author are ASCII text, the
    text filter keeps the rows in which the text occurs, the case of the
    letters A to Z set aside, in the title or in the author; on the
    empty text it keeps every row. *)
Theorem text_filter_plain (query : string) (df : list Book) :
  plain_text query = true ->
  is_ascii query = true ->
  Forall (fun b => ascii_row b = true) df ->
  text_filter query df =
    Ok (if truthy query then List.filter (literal_match query) df else df).
Proof.
  intros Hp _ Hrows. unfold text_filter.
  destruct (truthy query); [|reflexivity].
  rewrite <- plain_text_lower in Hp.
  destruct (re_compile_plain (lower query) Hp) as (items & -> & Hm).
  apply keep_rows_total.
  apply Forall_forall. intros b Hb.
  rewrite Forall_forall in Hrows.
  destruct (ascii_row_contains items b (Hrows b Hb))
    as (t & au & Ht & Hau & ->).
  unfold literal_match, cell_occurs. rewrite Ht, Hau.
  rewrite !(re_search_occurs_in items (lower query) Hm). reflexivity.
Qed.

Lemma text_filter_plain_witness :
  plain_text "HERB" = true
  /\ is_ascii "HERB" = true
  /\ Forall (fun b => ascii_row b = true) [record_A; dune]
  /\ text_filter "HERB" [record_A; dune] = Ok [dune].
Proof.
  assert (Forall (fun b => ascii_row b = true) [record_A; dune]) as Hrows
    by (repeat constructor).
  split; [reflexivity|]. split; [reflexivity|]. split; [exact Hrows|].
  rewrite (text_filter_plain "HERB" [record_A; dune] eq_refl eq_refl Hrows).
  reflexivity.
Defined.

(** ** The cards and the pages *)

Lemma same_store_refl (st : State) : same_store st st.
Proof. repeat split. Qed.

Lemma same_store_trans (st1 st2 st3 : State) :
  same_store st1 st2 -> same_store st2 st3 -> same_store st1 st3.
Proof.
  intros (A1 & A2 & A3 & A4) (B1 & B2 & B3 & B4).
  repeat split; congruence.
Qed.

(** Showing a cover changes the page alone, whenever it runs to its
    end. *)
Lemma display_cover_inv (cover_path : Cell) (st st' : State) :
  display_cover cover_path st = Ok (tt, st') -> same_store st st'.
Proof.
  unfold display_cover, cover_exists, mbind, M_bind, path_exists, mret, M_ret,
    emit, stop.
  destruct cover_path as [p| |text]; [|discriminate|discriminate].
  destruct (truthy p);
    [destruct (bool_decide (is_Some (files st !! p)))|];
    intros H; apply Ok_state_inj in H; subst st'; repeat split.
Qed.

Lemma display_cover_same_store (cover_path : Cell) (st : State) :
  is_str cover_path = true ->
  exists st' : State,
    display_cover cover_path st = Ok (tt, st') /\ same_store st st'.
Proof.
  destruct cover_path as [p| |text]; [intros _|discriminate|discriminate].
  unfold display_cover, cover_exists, mbind, M_bind, path_exists, mret, M_ret,
    emit.
  destruct (truthy p);
    [destruct (bool_decide (is_Some (files st !! p)))|];
    eexists; (split; [reflexivity|]); repeat split.
Qed.

(** A card with a [str] cover cell none of whose buttons is pressed
    changes nothing but the page. *)
Lemma show_book_card_idle (book : Book) (index : nat) (st : State) :
  bar_embedded book = true ->
  is_str (Cover_Image book) = true ->
  exists st' : State,
    show_book_card book index no_press st = Some (Ok (tt, st'))
    /\ same_store st st'.
Proof.
  intros Hbar Hstr. unfold show_book_card. rewrite Hbar.
  destruct (display_cover_same_store (Cover_Image book) st Hstr)
    as (st' & Hd & Hs).
  exists st'. split; [|exact Hs].
  cbn [no_press edit_pressed delete_pressed].
  unfold mbind, M_bind. rewrite Hd. reflexivity.
Qed.

Lemma show_cards_app (xs ys : list (nat * Book)) (buttons : nat -> CardButtons)
    (st : State) :
  show_cards (xs ++ ys) buttons st =
    match show_cards xs buttons st with
    | Some (Ok (_, st')) => show_cards ys buttons st'
    | Some (Stopped why) => Some (Stopped why)
    | None => None
    end.
Proof.
  revert st. induction xs as [|[index book] xs IH]; intros st; [reflexivity|].
  cbn [app show_cards].
  destruct (show_book_card book index (buttons index) st) as [[[[] st']|]|];
    [apply IH|reflexivity|reflexivity].
Qed.

Lemma show_cards_idle (cards : list (nat * Book)) (buttons : nat -> CardButtons) :
  forall st : State,
    Forall (fun c => card_drawn (snd c) /\ buttons (fst c) = no_press) cards ->
    exists st' : State,
      show_cards cards buttons st = Some (Ok (tt, st')) /\ same_store st st'.
Proof.
  induction cards as [|[index book] cards IH]; intros st H.
  - exists st. split; [reflexivity|apply same_store_refl].
  - apply Forall_cons in H as [[[Hbar Hstr] Hidle] H].
    cbn [fst snd] in Hbar, Hstr, Hidle.
    cbn [show_cards]. rewrite Hidle.
    destruct (show_book_card_idle book index st Hbar Hstr) as (st1 & -> & Hs1).
    destruct (IH st1 H) as (st2 & Hrun & Hs2).
    exists st2. split; [exact Hrun|].
    exact (same_store_trans _ _ _ Hs1 Hs2).
Qed.

Lemma enumerate_from_split (view : list Book) :
  forall (start k : nat) (book : Book),
    view !! k = Some book ->
    enumerate_from start view =
      (enumerate_from start (take k view)
         ++ (start + k, book)%nat
         :: enumerate_from (S (start + k)) (drop (S k) view))%list.
Proof.
  induction view as [|x view IH]; intros start k book H; [discriminate|].
  destruct k as [|k].
  - injection H as ->. cbn. rewrite Nat.add_0_r. reflexivity.
  - cbn [take drop enumerate_from app]. f_equal.
    rewrite (IH (S start) k book H).
    replace (S start + k)%nat with (start + S k)%nat by lia. reflexivity.
Qed.

Lemma enumerate_from_indices (view : list Book) :
  forall (start : nat) (c : nat * Book),
    In c (enumerate_from start view) ->
    (start <= fst c < start + length view)%nat /\ In (snd c) view.
Proof.
  induction view as [|x view IH]; intros start c H; [contradiction|].
  cbn [enumerate_from length] in *. destruct H as [<-|H].
  - cbn [fst snd]. split; [lia|left; reflexivity].
  - destruct (IH (S start) c H) as [Hr Hin]. split; [lia|right; exact Hin].
Qed.

(** The cards of a view that no button but the one of position [k] is
    pressed on: the cards before and after position [k] change nothing
    but the page. *)
Lemma cards_quiet (view : list Book) (buttons : nat -> CardButtons) (k : nat) :
  Forall card_drawn view ->
  (forall j : nat, j <> k -> buttons j = no_press) ->
  forall (start : nat) (rows : list Book),
    (forall b : Book, In b rows -> In b view) ->
    (forall c : nat * Book, In c (enumerate_from start rows) -> fst c <> k) ->
    Forall (fun c => card_drawn (snd c) /\ buttons (fst c) = no_press)
      (enumerate_from start rows).
Proof.
  intros Hdrawn Hidle start rows Hsub Hne.
  apply List.Forall_forall. intros c Hc. split.
  - rewrite List.Forall_forall in Hdrawn. apply Hdrawn. apply Hsub.
    exact (proj2 (enumerate_from_indices rows start c Hc)).
  - apply Hidle. apply Hne. exact Hc.
Qed.

(** The cards of a view, with the Delete button of the card at position
    [k] pressed and no other button: the loop runs to its end, and what
    it removes is the row of the frame at label [k] and that row's cover
    file. *)
Lemma show_cards_delete (view : list Book) (buttons : nat -> CardButtons)
    (k : nat) (shown_book stored : Book) (p : string) (st : State) :
  Forall card_drawn view ->
  view !! k = Some shown_book ->
  library_df st !! k = Some stored ->
  Cover_Image stored = Str p ->
  buttons k = {| edit_pressed := false; delete_pressed := true |} ->
  (forall j : nat, j <> k -> buttons j = no_press) ->
  exists st' : State,
    show_cards (enumerate_from 0 view) buttons st = Some (Ok (tt, st'))
    /\ library_df st' = delete k (library_df st)
    /\ edit_index st' = edit_index st
    /\ files st' = (if truthy p then delete p (files st) else files st)
    /\ data_file st' = Some (delete k (library_df st)).
Proof.
  intros Hdrawn Hk Hstored Hcover Hpress Hidle.
  rewrite (enumerate_from_split view 0 k shown_book Hk). cbn [Nat.add].
  pose proof (cards_quiet view buttons k Hdrawn Hidle) as Hquiet.
  rewrite show_cards_app.
  destruct (show_cards_idle (enumerate_from 0 (take k view)) buttons st)
    as (st1 & -> & S1).
  { apply Hquiet.
    - intros b Hb. apply list_elem_of_In. apply list_elem_of_In in Hb.
      exact (subseteq_take k view b Hb).
    - intros c Hc. apply enumerate_from_indices in Hc as [Hr _].
      rewrite length_take in Hr. lia. }
  cbn [show_cards]. rewrite Hpress.
  assert (card_drawn shown_book) as [Hb Hstr].
  { rewrite List.Forall_forall in Hdrawn. apply Hdrawn.
    apply list_elem_of_In. eapply list_elem_of_lookup_2. exact Hk. }
  unfold show_book_card. rewrite Hb. cbn [edit_pressed delete_pressed].
  destruct (display_cover_same_store (Cover_Image shown_book) st1 Hstr)
    as (st2 & Hd & S2).
  pose proof (same_store_trans _ _ _ S1 S2) as (D2 & E2 & F2 & P2).
  assert (library_df st2 !! k = Some stored) as Hst2
    by (rewrite D2; exact Hstored).
  pose proof (delete_book_ok k st2 stored p Hst2 Hcover) as Hdel.
  cbn zeta in Hdel.
  unfold mbind, M_bind. rewrite Hd. unfold mret, M_ret. rewrite Hdel.
  match goal with
  | |- exists _, show_cards ?cs _ ?s = _ /\ _ =>
      destruct (show_cards_idle cs buttons s) as (st4 & -> & S4)
  end.
  { apply Hquiet.
    - intros b Hin. apply list_elem_of_In. apply list_elem_of_In in Hin.
      exact (subseteq_drop (S k) view b Hin).
    - intros c Hc. apply enumerate_from_indices in Hc as [Hr _]. lia. }
  destruct S4 as (D4 & E4 & F4 & P4). cbn [library_df edit_index files
    data_file] in D4, E4, F4, P4.
  exists st4. split; [reflexivity|].
  rewrite D4, E4, F4, P4, D2, E2, F2. repeat split.
Qed.

(** The Delete button of a card removes the row of the frame that sits
    at the card's position in the view.  The cards can be drawn (their
    cover cells are [str] objects), the cover cell of the row at label
    [k] is as the script writes it, and the stored files are listed
    under their paths in the cover folder.  With the Delete button of
    the card at position [k] pressed, a run of the library page ends
    with the frame's row of label [k] and its cover file removed and the
    rest written to the data file, whichever book the card at position
    [k] shows; a book shown there that the frame holds at another label
    is still in the frame afterwards. *)
Theorem delete_button_removes_row_at_card_position
    (sort_values : SortColumn -> bool -> list Book -> list Book)
    (inputs : Rerun) (st : State) (view : list Book) (k : nat)
    (shown_book stored : Book) (p : string) :
  r_app_mode inputs = My_Library ->
  filter_and_sort_books sort_values (r_filters inputs) (library_df st)
    = Ok view ->
  Forall card_drawn view ->
  view !! k = Some shown_book ->
  library_df st !! k = Some stored ->
  Cover_Image stored = Str p ->
  cover_cell_written (Cover_Image stored) = true ->
  plain_store (files st) ->
  r_buttons inputs k = {| edit_pressed := false; delete_pressed := true |} ->
  (forall j : nat, j <> k -> r_buttons inputs j = no_press) ->
  edit_index st = None ->
  exists st' : State,
    main sort_values inputs st = Some (Ok (tt, st'))
    /\ library_df st' = delete k (library_df st)
    /\ files st' = (if truthy p then delete p (files st) else files st)
    /\ plain_store (files st')
    /\ data_file st' = Some (library_df st')
    /\ forall j : nat,
         j <> k -> library_df st !! j = Some shown_book ->
         In shown_book (library_df st').
Proof.
  intros Hmode Hview Hdrawn Hk Hstored Hcover _ Hstore Hpress Hidle Hedit.
  destruct (show_cards_delete view (r_buttons inputs) k shown_book stored p st
              Hdrawn Hk Hstored Hcover Hpress Hidle)
    as (st1 & Hrun & Hdf & He & Hf & Hp).
  exists st1. split.
  - unfold main. rewrite Hmode.
    destruct (library_df st) as [|x df] eqn:Edf; [discriminate|].
    rewrite Hview. destruct view as [|y view']; [discriminate|].
    rewrite Hrun.
    unfold show_edit_book_form, get_edit_index, mbind, M_bind.
    rewrite He, Hedit. reflexivity.
  - split; [exact Hdf|]. split; [exact Hf|].
    split.
    { rewrite Hf. intros path Hsome. apply Hstore.
      destruct (truthy p); [|exact Hsome].
      destruct Hsome as [x Hx]. apply lookup_delete_Some in Hx as [_ Hx].
      eauto. }
    split; [rewrite Hp, Hdf; reflexivity|].
    intros j Hj Hshown. rewrite Hdf.
    apply (delete_keeps_other_rows _ j k shown_book Hshown Hj).
Qed.

Lemma delete_button_removes_row_at_card_position_witness :
  filter_and_sort_books (fun _ _ l => l) (r_filters delete_first_card)
    (library_df rated_copy_state) = Ok [dune_rated]
  /\ [dune_rated] !! 0%nat = Some dune_rated
  /\ library_df rated_copy_state !! 0%nat = Some dune
  /\ library_df rated_copy_state !! 1%nat = Some dune_rated
  /\ exists st' : State,
       main (fun _ _ l => l) delete_first_card rated_copy_state
         = Some (Ok (tt, st'))
       /\ library_df st' = [dune_rated]
       /\ files st' !! "book_covers/111.jpg" = None
       /\ files st' !! "book_covers/333.jpg" = Some "other cover".
Proof.
  split; [reflexivity|]. split; [reflexivity|]. split; [reflexivity|].
  split; [reflexivity|].
  destruct (delete_button_removes_row_at_card_position (fun _ _ l => l)
              delete_first_card rated_copy_state [dune_rated] 0 dune_rated
              dune "book_covers/111.jpg")
    as (st' & Hrun & Hdf & Hfiles & _).
  - reflexivity.
  - reflexivity.
  - repeat constructor.
  - reflexivity.
  - reflexivity.
  - reflexivity.
  - reflexivity.
  - intros path [x Hx]. unfold rated_copy_state, files in Hx.
    apply lookup_insert_Some in Hx as [[<- _]|[_ Hx]]; [reflexivity|].
    apply lookup_singleton_Some in Hx as [<- _]. reflexivity.
  - reflexivity.
  - intros j Hj. unfold delete_first_card, r_buttons, delete_at.
    destruct (Nat.eqb_spec j 0); [contradiction|reflexivity].
  - reflexivity.
  - exists st'. split; [exact Hrun|]. split; [exact Hdf|].
    rewrite Hfiles. split; vm_compute; reflexivity.
Defined.

(** A library page on which no button is pressed leaves the session as
    it was but for the page, up to the edit form. *)
Lemma main_library_idle
    (sort_values : SortColumn -> bool -> list Book -> list Book)
    (inputs : Rerun) (st : State) (view : list Book) :
  r_app_mode inputs = My_Library ->
  filter_and_sort_books sort_values (r_filters inputs) (library_df st)
    = Ok view ->
  Forall card_drawn view ->
  (forall j : nat, r_buttons inputs j = no_press) ->
  exists st1 : State,
    same_store st st1
    /\ main sort_values inputs st =
         match library_df st, view with
         | _ :: _, _ :: _ =>
             Some (show_edit_book_form (r_today inputs) (r_edit inputs)
                     (r_edit_click inputs) st1)
         | _, _ => Some (Ok (tt, st1))
         end.
Proof.
  intros Hmode Hview Hdrawn Hidle.
  destruct (show_cards_idle (enumerate_from 0 view) (r_buttons inputs) st)
    as (st1 & Hrun & Hs).
  { apply List.Forall_forall. intros c Hc. split; [|apply Hidle].
    rewrite List.Forall_forall in Hdrawn. apply Hdrawn.
    exact (proj2 (enumerate_from_indices view 0 c Hc)). }
  unfold main. rewrite Hmode.
  destruct (library_df st) as [|x df] eqn:Edf.
  - exists st. split; [apply same_store_refl|]. reflexivity.
  - rewrite Hview. destruct view as [|y view'].
    + exists st. split; [apply same_store_refl|]. reflexivity.
    + exists st1. split; [exact Hs|]. rewrite Hrun. reflexivity.
Qed.

(** The Edit button of a card opens the form on the row of the frame
    that sits at the card's position in the view.  The cards can be
    drawn, the row at label [k] holds [str] cells, and the cover the
    form submits, if any, gets a plain name in the cover folder.  After
    the Edit button of the card at position [k] and a submitted form
    with its required fields, the frame's row of label [k] holds the
    values of the form, whichever book the card showed, and every other
    row is as before.  The first two premises say that the widgets of
    the form accept the stored row they start from and return the values
    submitted. *)
Theorem edit_button_opens_row_at_card_position
    (sort_values : SortColumn -> bool -> list Book -> list Book)
    (press submit : Rerun) (st : State) (view : list Book) (k : nat)
    (shown_book stored : Book) (this_year : Z) :
  edit_widgets_return this_year stored (form_initial stored) = true ->
  edit_widgets_return this_year stored (r_edit submit) = true ->
  r_app_mode press = My_Library -> r_app_mode submit = My_Library ->
  r_filters submit = r_filters press ->
  filter_and_sort_books sort_values (r_filters press) (library_df st)
    = Ok view ->
  Forall card_drawn view ->
  view !! k = Some shown_book ->
  library_df st !! k = Some stored ->
  str_row stored = true ->
  upload_plain (ev_cover_file (r_edit submit)) (ev_isbn (r_edit submit))
    = true ->
  r_buttons press k = {| edit_pressed := true; delete_pressed := false |} ->
  (forall j : nat, j <> k -> r_buttons press j = no_press) ->
  r_edit_click press = NoClick ->
  (forall j : nat, r_buttons submit j = no_press) ->
  r_edit_click submit = ClickUpdate ->
  required_missing (ev_title (r_edit submit)) (ev_author (r_edit submit))
    (ev_pages (r_edit submit)) = false ->
  exists st' : State,
    session sort_values [press; submit] st = Some (Ok (tt, st'))
    /\ library_df st' =
         <[k := updated_row (r_today submit) (form_args (r_edit submit))
                  stored]> (library_df st)
    /\ edit_index st' = None
    /\ forall j : nat, j <> k -> library_df st' !! j = library_df st !! j.
Proof.
  intros _ _ Hm1 Hm2 Hf Hview Hdrawn Hk Hstored Hstr Hup Hpress Hidle Hc1
    Hidle2 Hc2 Hreq.
  (* first run: the cards before [k], the card at [k], the cards after *)
  assert (exists st1 : State,
            show_cards (enumerate_from 0 view) (r_buttons press) st
              = Some (Ok (tt, st1))
            /\ library_df st1 = library_df st
            /\ edit_index st1 = Some k
            /\ files st1 = files st
            /\ data_file st1 = data_file st) as (st1 & Hrun1 & D1 & E1 & F1 & P1).
  { rewrite (enumerate_from_split view 0 k shown_book Hk). cbn [Nat.add].
    pose proof (cards_quiet view (r_buttons press) k Hdrawn Hidle) as Hquiet.
    rewrite show_cards_app.
    destruct (show_cards_idle (enumerate_from 0 (take k view))
                (r_buttons press) st) as (sa & -> & Sa).
    { apply Hquiet.
      - intros b Hb. apply list_elem_of_In. apply list_elem_of_In in Hb.
        exact (subseteq_take k view b Hb).
      - intros c Hc. apply enumerate_from_indices in Hc as [Hr _].
        rewrite length_take in Hr. lia. }
    cbn [show_cards]. rewrite Hpress.
    assert (card_drawn shown_book) as [Hb Hcs].
    { rewrite List.Forall_forall in Hdrawn. apply Hdrawn.
      apply list_elem_of_In. eapply list_elem_of_lookup_2. exact Hk. }
    unfold show_book_card. rewrite Hb. cbn [edit_pressed delete_pressed].
    destruct (display_cover_same_store (Cover_Image shown_book) sa Hcs)
      as (sb & Hd & Sb).
    pose proof (same_store_trans _ _ _ Sa Sb) as (D2 & E2 & F2 & P2).
    unfold mbind, M_bind. rewrite Hd. unfold set_edit_index, mret, M_ret.
    match goal with
    | |- exists _, show_cards ?cs _ ?s = _ /\ _ =>
        destruct (show_cards_idle cs (r_buttons press) s) as (sc & -> & Sc)
    end.
    { apply Hquiet.
      - intros b Hin. apply list_elem_of_In. apply list_elem_of_In in Hin.
        exact (subseteq_drop (S k) view b Hin).
      - intros c Hc. apply enumerate_from_indices in Hc as [Hr _]. lia. }
    destruct Sc as (D4 & E4 & F4 & P4).
    cbn [library_df edit_index files data_file] in D4, E4, F4, P4.
    exists sc. split; [reflexivity|].
    rewrite D4, E4, F4, P4, D2, F2, P2. repeat split. }
  assert (main sort_values press st = Some (Ok (tt, st1))) as Hmain1.
  { unfold main. rewrite Hm1.
    destruct (library_df st) as [|x df] eqn:Edf; [discriminate|].
    rewrite Hview. destruct view as [|y view']; [discriminate|].
    rewrite Hrun1.
    unfold show_edit_book_form, get_edit_index, iloc, mbind, M_bind.
    rewrite E1, D1, Hstored, Hc1. reflexivity. }
  (* second run: idle cards, then the form *)
  assert (filter_and_sort_books sort_values (r_filters submit) (library_df st1)
          = Ok view) as Hview2 by (rewrite Hf, D1; exact Hview).
  destruct (main_library_idle sort_values submit st1 view Hm2 Hview2 Hdrawn
              Hidle2) as (st2 & (D3 & E3 & F3 & P3) & Hmain2).
  assert (library_df st2 !! k = Some stored) as Hst2.
  { rewrite D3, D1. exact Hstored. }
  assert (edit_index st2 = Some k) as He2 by (rewrite E3; exact E1).
  pose proof (show_edit_book_form_update (r_today submit) (r_edit submit) st2
                k stored He2 Hst2 Hstr Hup Hreq) as Hform.
  cbn zeta in Hform.
  eexists. split.
  - cbn [session]. rewrite Hmain1, Hmain2.
    assert (library_df st1 !! k = Some stored) as Hst1
      by (rewrite D1; exact Hstored).
    destruct (library_df st1) as [|x df]; [discriminate|].
    destruct view as [|y view']; [discriminate|].
    rewrite Hc2 in *. rewrite Hform. reflexivity.
  - cbn [library_df edit_index]. rewrite D3, D1.
    split; [reflexivity|]. split; [reflexivity|].
    intros j Hj. apply list_lookup_insert_ne. congruence.
Qed.

Lemma edit_button_opens_row_at_card_position_witness :
  filter_and_sort_books (fun _ _ l => l) (r_filters edit_first_card)
    (library_df B_then_A_state) = Ok [record_A]
  /\ library_df B_then_A_state !! 0%nat = Some record_B
  /\ str_row record_B = true
  /\ upload_plain (ev_cover_file (r_edit submit_edit_form))
       (ev_isbn (r_edit submit_edit_form)) = true
  /\ exists (st' : State) (b' : Book),
       session (fun _ _ l => l) [edit_first_card; submit_edit_form]
         B_then_A_state = Some (Ok (tt, st'))
       /\ library_df st' = [b'; record_A]
       /\ Title b' = Str "Dune".
Proof.
  split; [reflexivity|]. split; [reflexivity|]. split; [reflexivity|].
  split; [reflexivity|].
  destruct (edit_button_opens_row_at_card_position (fun _ _ l => l)
              edit_first_card submit_edit_form B_then_A_state [record_A] 0
              record_A record_B 2026)
    as (st' & Hrun & Hdf & _).
  - vm_compute. reflexivity.
  - vm_compute. reflexivity.
  - reflexivity.
  - reflexivity.
  - reflexivity.
  - reflexivity.
  - repeat constructor.
  - reflexivity.
  - reflexivity.
  - reflexivity.
  - reflexivity.
  - reflexivity.
  - intros j Hj. unfold edit_first_card, r_buttons, edit_at.
    destruct (Nat.eqb_spec j 0); [contradiction|reflexivity].
  - reflexivity.
  - reflexivity.
  - reflexivity.
  - reflexivity.
  - exists st', (updated_row "2026-11-04" (form_args fewer_pages) record_B).
    split; [exact Hrun|]. split; [exact Hdf|]. reflexivity.
Defined.

(** ** What a session keeps *)

Lemma required_missing_false (title author : string) (pages : Z) :
  required_missing title author pages = false ->
  title <> "" /\ author <> "" /\ pages <> 0.
Proof.
  unfold required_missing. intros H.
  apply orb_false_elim in H as [H Hp]. apply orb_false_elim in H as [Ht Ha].
  apply negb_false_iff in Ht. apply negb_false_iff in Ha.
  apply Z.eqb_neq in Hp.
  repeat split; [intros -> ..|exact Hp]; discriminate.
Qed.

(** Whatever the upload, an addition that runs to its end appends
    [added_row] and writes the frame to the data file. *)
Lemma add_book_inv (today title author isbn genre : string) (year pages : Z)
    (cover_file : option UploadedFile) (st st' : State) :
  add_book today title author isbn genre year pages cover_file st
    = Ok (tt, st') ->
  library_df st' =
    (library_df st ++
       [added_row today title author isbn genre year pages cover_file])%list
  /\ data_file st' = Some (library_df st')
  /\ edit_index st' = edit_index st.
Proof.
  intros H. destruct cover_file as [f|].
  - destruct (write_target (files st)
                (cover_filename_of isbn (file_extension f))) eqn:W.
    + assert (handle_cover_upload (Some f) isbn st =
                Ok (Some (cover_filename_of isbn (file_extension f)),
                    {| library_df := library_df st;
                       edit_index := edit_index st;
                       files := uploaded_files (Some f) isbn (files st);
                       data_file := data_file st; shown := shown st |}))
        as Hup.
      { unfold handle_cover_upload, mbind, M_bind, write_file. rewrite W.
        reflexivity. }
      unfold add_book, mbind, M_bind in H. rewrite Hup in H.
      apply Ok_state_inj in H. subst st'.
      cbn [library_df data_file edit_index]. repeat split.
    + unfold add_book, handle_cover_upload, mbind, M_bind, write_file in H.
      rewrite W in H. discriminate.
    + unfold add_book, handle_cover_upload, mbind, M_bind, write_file in H.
      rewrite W in H. discriminate.
  - rewrite (add_book_ok today title author isbn genre year pages None st
               eq_refl) in H.
    apply Ok_state_inj in H. subst st'.
    cbn [library_df data_file edit_index]. repeat split.
Qed.

Lemma show_add_book_form_inv (today title author isbn genre : string)
    (year pages : Z) (cover_file : option UploadedFile) (submitted : bool)
    (st st' : State) :
  show_add_book_form today title author isbn genre year pages cover_file
    submitted st = Ok (tt, st') ->
  (library_df st' = library_df st /\ data_file st' = data_file st)
  \/ (required_missing title author pages = false
      /\ library_df st' =
           (library_df st ++
              [added_row today title author isbn genre year pages
                 cover_file])%list
      /\ data_file st' = Some (library_df st')).
Proof.
  unfold show_add_book_form. intros H. destruct submitted.
  - destruct (required_missing title author pages) eqn:R.
    + apply Ok_state_inj in H. subst st'. left. split; reflexivity.
    + apply add_book_inv in H as (D & P & _). right.
      split; [reflexivity|]. split; [exact D|exact P].
  - apply Ok_state_inj in H. subst st'. left. split; reflexivity.
Qed.

Lemma show_edit_book_form_inv (today : string) (v : EditValues)
    (click : Click) (st st' : State) :
  show_edit_book_form today v click st = Ok (tt, st') ->
  (library_df st' = library_df st /\ data_file st' = data_file st)
  \/ (exists (index : nat) (b : Book),
        required_missing (ev_title v) (ev_author v) (ev_pages v) = false
        /\ library_df st !! index = Some b
        /\ library_df st' =
             <[index := updated_row today (form_args v) b]> (library_df st)
        /\ data_file st' = Some (library_df st')).
Proof.
  intros H.
  unfold show_edit_book_form, get_edit_index, iloc, mbind, M_bind in H.
  destruct (edit_index st) as [index|] eqn:He.
  2: { apply Ok_state_inj in H. subst st'. left. split; reflexivity. }
  destruct (library_df st !! index) as [b|] eqn:Hb; [|discriminate].
  destruct click.
  - apply Ok_state_inj in H. subst st'. left. split; reflexivity.
  - destruct (required_missing (ev_title v) (ev_author v) (ev_pages v))
      eqn:R.
    + apply Ok_state_inj in H. subst st'. left. split; reflexivity.
    + destruct (update_book today index (ev_title v) (ev_author v)
                  (ev_isbn v) (ev_genre v) (ev_year v) (ev_pages v)
                  (ev_current_page v) (ev_status v) (ev_rating v)
                  (ev_review v) (ev_cover_file v) st)
        as [[[] st1]|why] eqn:Hrun; [|discriminate].
      apply Ok_state_inj in H. subst st'.
      cbn [library_df data_file].
      destruct (update_with_inv today index (form_args v) st st1 Hrun)
        as (b' & Hb' & D & P & _).
      rewrite Hb in Hb'. injection Hb' as <-.
      right. exists index, b.
      split; [reflexivity|]. split; [exact Hb|]. split; [exact D|exact P].
  - apply Ok_state_inj in H. subst st'. left. split; reflexivity.
Qed.

Section SessionInvariant.

(** A property of the frame and of the data file that the three
    operations keep, as the forms and the cards call them. *)
Variable Inv : list Book -> option (list Book) -> Prop.

Hypothesis Inv_delete : forall (index : nat) (df : list Book)
    (file : option (list Book)),
  Inv df file -> Inv (delete index df) (Some (delete index df)).

Hypothesis Inv_add : forall (today title author isbn genre : string)
    (year pages : Z) (cover_file : option UploadedFile) (df : list Book)
    (file : option (list Book)),
  required_missing title author pages = false ->
  Inv df file ->
  Inv (df ++ [added_row today title author isbn genre year pages
                cover_file])%list
      (Some
         (df ++ [added_row today title author isbn genre year pages
                   cover_file])%list).

Hypothesis Inv_update : forall (today : string) (v : EditValues) (index : nat)
    (b : Book) (df : list Book) (file : option (list Book)),
  required_missing (ev_title v) (ev_author v) (ev_pages v) = false ->
  df !! index = Some b ->
  Inv df file ->
  Inv (<[index := updated_row today (form_args v) b]> df)
      (Some (<[index := updated_row today (form_args v) b]> df)).

Variable sort_values : SortColumn -> bool -> list Book -> list Book.

Lemma show_book_card_keeps (book : Book) (index : nat) (buttons : CardButtons)
    (st st' : State) :
  show_book_card book index buttons st = Some (Ok (tt, st')) ->
  Inv (library_df st) (data_file st) ->
  Inv (library_df st') (data_file st').
Proof.
  unfold show_book_card. destruct (bar_embedded book); [|discriminate].
  intros H HI. injection H as H. unfold mbind, M_bind in H.
  destruct (display_cover (Cover_Image book) st) as [[[] st1]|why] eqn:Hd;
    [|discriminate].
  apply display_cover_inv in Hd as (D1 & _ & _ & P1).
  assert (exists st2 : State,
            (if edit_pressed buttons then set_edit_index index else mret tt)
              st1 = Ok (tt, st2)
            /\ library_df st2 = library_df st /\ data_file st2 = data_file st)
    as (st2 & He & D2 & P2).
  { destruct (edit_pressed buttons); eexists;
      (split; [reflexivity|]); cbn [library_df data_file]; auto. }
  rewrite He in H.
  destruct (delete_pressed buttons).
  - apply delete_book_inv in H as (Hdf & Hfile & _).
    rewrite Hfile, Hdf, D2. eapply Inv_delete. exact HI.
  - apply Ok_state_inj in H. subst st'. rewrite D2, P2. exact HI.
Qed.

Lemma show_cards_keeps (cards : list (nat * Book)) (buttons : nat -> CardButtons) :
  forall st st' : State,
    show_cards cards buttons st = Some (Ok (tt, st')) ->
    Inv (library_df st) (data_file st) ->
    Inv (library_df st') (data_file st').
Proof.
  induction cards as [|[index book] cards IH]; intros st st' H HI.
  - injection H as <-. exact HI.
  - cbn [show_cards] in H.
    destruct (show_book_card book index (buttons index) st)
      as [[[[] st1]|]|] eqn:Hc; try discriminate.
    apply (IH st1 st' H). exact (show_book_card_keeps _ _ _ _ _ Hc HI).
Qed.

Lemma main_keeps (inputs : Rerun) (st st' : State) :
  main sort_values inputs st = Some (Ok (tt, st')) ->
  Inv (library_df st) (data_file st) ->
  Inv (library_df st') (data_file st').
Proof.
  unfold main. intros H HI. destruct (r_app_mode inputs).
  - destruct (library_df st) as [|x df] eqn:Edf.
    { injection H as <-. rewrite Edf. exact HI. }
    destruct (filter_and_sort_books sort_values (r_filters inputs) (x :: df))
      as [[|y view]|]; try discriminate.
    { injection H as <-. rewrite Edf. exact HI. }
    destruct (show_cards (enumerate_from 0 (y :: view)) (r_buttons inputs) st)
      as [[[[] st1]|]|] eqn:Hc; try discriminate.
    injection H as H.
    assert (Inv (library_df st1) (data_file st1)) as H1.
    { apply (show_cards_keeps _ _ _ _ Hc). rewrite Edf. exact HI. }
    apply show_edit_book_form_inv in H
      as [[D P]|(index & b & R & Hb & D & P)].
    + rewrite D, P. exact H1.
    + rewrite P, D. eapply Inv_update; eassumption.
  - injection H as H.
    apply show_add_book_form_inv in H as [[D P]|(R & D & P)].
    + rewrite D, P. exact HI.
    + rewrite P, D. eapply Inv_add; eassumption.
  - injection H as <-. exact HI.
Qed.

Lemma session_keeps (reruns : list Rerun) :
  forall st st' : State,
    session sort_values reruns st = Some (Ok (tt, st')) ->
    Inv (library_df st) (data_file st) ->
    Inv (library_df st') (data_file st').
Proof.
  induction reruns as [|inputs reruns IH]; intros st st' H HI.
  - injection H as <-. exact HI.
  - cbn [session] in H.
    destruct (main sort_values inputs st) as [[[[] st1]|]|] eqn:Hm;
      try discriminate.
    apply (IH st1 st' H). exact (main_keeps _ _ _ Hm HI).
Qed.

End SessionInvariant.

(** Through a whole session the data file holds the frame: if it does
    when the session starts (or was never written while the frame is
    empty), it does after any number of reruns, whichever pages are
    shown and buttons pressed. *)
Theorem session_keeps_data_file_in_step
    (sort_values : SortColumn -> bool -> list Book -> list Book)
    (reruns : list Rerun) (st st' : State) :
  persisted st ->
  session sort_values reruns st = Some (Ok (tt, st')) ->
  persisted st'.
Proof.
  intros HP H.
  apply (session_keeps
           (fun df file => file = Some df \/ (file = None /\ df = []))
           ltac:(intros; left; reflexivity)
           ltac:(intros; left; reflexivity)
           ltac:(intros; left; reflexivity)
           sort_values reruns st st' H HP).
Qed.

Lemma session_keeps_data_file_in_step_witness :
  persisted empty_state
  /\ exists st' : State,
       session (fun _ _ l => l) [add_dune; delete_first_card] empty_state
         = Some (Ok (tt, st'))
       /\ persisted st'.
Proof.
  assert (persisted empty_state) as HP by (right; split; reflexivity).
  split; [exact HP|].
  eexists. split; [reflexivity|].
  eapply (session_keeps_data_file_in_step (fun _ _ l => l)
            [add_dune; delete_first_card] empty_state _ HP).
  reflexivity.
Defined.

(** Through a whole session every row has its required fields: when
    title, author and page count are filled in on every row at the
    start, they are on every row after any number of reruns.  The two
    forms refuse a submission without them and deleting removes rows
    only. *)
Theorem session_keeps_required_fields
    (sort_values : SortColumn -> bool -> list Book -> list Book)
    (reruns : list Rerun) (st st' : State) :
  Forall required_present (library_df st) ->
  session sort_values reruns st = Some (Ok (tt, st')) ->
  Forall required_present (library_df st').
Proof.
  intros HF H.
  assert (forall title author : string, forall pages : Z,
            required_missing title author pages = false ->
            Str title <> Str "" /\ Str author <> Str "" /\ pages <> 0) as Hreq.
  { intros title author pages R.
    destruct (required_missing_false _ _ _ R) as (Ht & Ha & Hp).
    repeat split; [intros E; injection E as E; contradiction ..|exact Hp]. }
  apply (session_keeps (fun df _ => Forall required_present df)) with
    (sort_values := sort_values) (reruns := reruns) (st := st); try assumption.
  - intros index df _ Hdf. apply Forall_delete. exact Hdf.
  - intros today title author isbn genre year pages cover_file df _ R Hdf.
    apply Forall_app. split; [exact Hdf|]. apply Forall_singleton.
    exact (Hreq _ _ _ R).
  - intros today v index b df _ R Hb Hdf.
    apply Forall_insert; [exact Hdf|].
    exact (Hreq _ _ _ R).
Qed.

Lemma session_keeps_required_fields_witness :
  Forall required_present (library_df empty_state)
  /\ exists st' : State,
       session (fun _ _ l => l) [add_dune] empty_state = Some (Ok (tt, st'))
       /\ Forall required_present (library_df st').
Proof.
  assert (Forall required_present (library_df empty_state)) as HF
    by constructor.
  split; [exact HF|].
  eexists. split; [reflexivity|].
  eapply (session_keeps_required_fields (fun _ _ l => l) [add_dune]
            empty_state _ HF).
  reflexivity.
Defined.

(** ** The edit form *)

(** An edit form submitted without a title, an author or a page count is
    answered with the error message alone: the row, the files and the
    data file are untouched and the form stays open.  Cancel closes the
    form and touches nothing else.  The first premise says that the
    widgets accept the stored row the form starts from. *)
Theorem edit_form_rejects_or_cancels (this_year : Z) (today : string)
    (v : EditValues) (st : State) (index : nat) (b : Book) :
  edit_widgets_return this_year b (form_initial b) = true ->
  edit_index st = Some index ->
  library_df st !! index = Some b ->
  (required_missing (ev_title v) (ev_author v) (ev_pages v) = true ->
   exists st' : State,
     show_edit_book_form today v ClickUpdate st = Ok (tt, st')
     /\ same_store st st'
     /\ shown st' = (shown st ++ [st_error REQUIRED_MSG])%list)
  /\ exists st' : State,
       show_edit_book_form today v ClickCancel st = Ok (tt, st')
       /\ edit_index st' = None
       /\ library_df st' = library_df st
       /\ files st' = files st
       /\ data_file st' = data_file st
       /\ shown st' = shown st.
Proof.
  intros _ He Hb. split.
  - intros R. eexists. split.
    + unfold show_edit_book_form, get_edit_index, iloc, mbind, M_bind.
      rewrite He, Hb, R. reflexivity.
    + split; [repeat split|reflexivity].
  - eexists. split.
    + unfold show_edit_book_form, get_edit_index, iloc, mbind, M_bind.
      rewrite He, Hb. reflexivity.
    + repeat split.
Qed.

Lemma edit_form_rejects_or_cancels_witness :
  edit_widgets_return 2026 dune (form_initial dune) = true
  /\ edit_index dune_state = Some 0%nat
  /\ library_df dune_state !! 0%nat = Some dune
  /\ exists st' : State,
       show_edit_book_form "2026-11-03" fewer_pages ClickCancel dune_state
         = Ok (tt, st')
       /\ edit_index st' = None
       /\ library_df st' = [dune].
Proof.
  assert (edit_widgets_return 2026 dune (form_initial dune) = true) as Hw
    by (vm_compute; reflexivity).
  split; [exact Hw|]. split; [reflexivity|]. split; [reflexivity|].
  destruct (edit_form_rejects_or_cancels 2026 "2026-11-03" fewer_pages
              dune_state 0 dune Hw eq_refl eq_refl)
    as (_ & st' & Hrun & He & Hdf & _).
  exists st'. split; [exact Hrun|]. split; [exact He|]. exact Hdf.
Defined.
